(** * Facial recognition service: the request handlers of
    [services/facial-recognition-service/main.py] and their contract.

    The service keeps one table, [facial_templates], in an SQLite file and
    exposes four handlers: [health_check], [register_face], [verify_face]
    and [delete_face].  The handlers are embedded as functions in a small
    state-and-exception monad over the state of the store; the face
    library, numpy and the image decoder are collaborators of the service
    and enter as parameters of the section [Service].  Floats are the
    primitive binary64 floats, and what is proved of the threshold
    comparison rests on their IEEE 754 specification. *)

From Stdlib Require Import String List Bool Arith ZArith Lia.
From Stdlib Require Import Floats.
Import ListNotations.
Local Open Scope string_scope.

(** ** Python values that matter to the handlers *)

(** The outcome of a Python call: a value, or a raised exception of which
    the handlers only ever use [str(e)]. *)
Inductive result (A : Type) : Type :=
| Ok (a : A)
| Raise (msg : string).
Arguments Ok {A} a.
Arguments Raise {A} msg.

(** The objects that the handlers put into the dictionaries handed to
    [jsonify].  Comparing a [numpy.float64] yields a [numpy.bool_], which
    is not a Python [bool]; [float(...)] turns a numpy scalar into a Python
    float. *)
Inductive pyobj : Type :=
| PyBool (b : bool)
| PyFloat (x : float)
| PyStr (s : string)
| NumpyBool (b : bool).

(** JSON values of a response body. *)
Inductive json : Type :=
| JBool (b : bool)
| JNumber (x : float)
| JString (s : string).

(** Python's [max(a, b)] and [min(a, b)] on floats: the first argument is
    kept unless the second one compares strictly beyond it. *)
Definition pymax (a b : float) : float := if PrimFloat.ltb a b then b else a.
Definition pymin (a b : float) : float := if PrimFloat.ltb b a then b else a.

(** [not v] for a value obtained with [dict.get]: [None] and the empty
    string are falsy. *)
Definition py_not (v : option string) : bool :=
  match v with
  | None => true
  | Some s => String.eqb s ""
  end.

Definition str_of (v : option string) : string :=
  match v with
  | None => ""
  | Some s => s
  end.

(** A JSON object with textual members, as [request.json] returns it;
    [None] is a missing (null) body. *)
Definition dict : Type := list (string * string).

Fixpoint dict_get (k : string) (d : dict) : option string :=
  match d with
  | [] => None
  | (k', v) :: d' => if String.eqb k k' then Some v else dict_get k d'
  end.

(** [not data]: a null body and the empty object are falsy. *)
Definition no_data (data : option dict) : bool :=
  match data with
  | None => true
  | Some [] => true
  | Some (_ :: _) => false
  end.

Definition get (k : string) (data : option dict) : option string :=
  match data with
  | None => None
  | Some d => dict_get k d
  end.

(** ** The store *)

(** One row of [facial_templates]: [fan_id TEXT PRIMARY KEY],
    [encoding BLOB NOT NULL], [created_at] and [updated_at], both
    [TIMESTAMP DEFAULT CURRENT_TIMESTAMP]. *)
Record row : Type := mkRow {
  fan_id : string;
  encoding : string;
  created_at : string;
  updated_at : string
}.

(** The state the handlers act on: the committed content of the table and
    the number of connections to the database file that are open. *)
Record world : Type := mkWorld {
  facial_templates : list row;
  open_connections : nat
}.

(** The sqlite3 calls a handler makes. *)
Inductive db_call : Type := Connect | Execute | Commit | Fetchone.

(** What a request finds around it: the two clocks, SQLite's
    [CURRENT_TIMESTAMP] and Python's [datetime.utcnow().isoformat()], and
    the sqlite3 calls that raise during the request (database locked, file
    unreadable, ...), each with the text of its exception. *)
Record env : Type := mkEnv {
  CURRENT_TIMESTAMP : string;
  utcnow_isoformat : string;
  raises : db_call -> option string
}.

(** An HTTP response: JSON body and status code. *)
Record response : Type := mkResponse {
  body : list (string * json);
  status : nat
}.

Definition keys {V : Type} (d : list (string * V)) : list string := map fst d.

Fixpoint field {V : Type} (k : string) (d : list (string * V)) : option V :=
  match d with
  | [] => None
  | (k', v) :: d' => if String.eqb k k' then Some v else field k d'
  end.

(** ** The monad of the handlers: state of the store plus exceptions *)

Definition M (A : Type) : Type := world -> result A * world.

Definition ret {A : Type} (a : A) : M A := fun w => (Ok a, w).

Definition raise {A : Type} (msg : string) : M A := fun w => (Raise msg, w).

Definition bind {A B : Type} (m : M A) (k : A -> M B) : M B :=
  fun w =>
    match m w with
    | (Ok a, w') => k a w'
    | (Raise msg, w') => (Raise msg, w')
    end.

(** A call into a collaborator: its exception propagates. *)
Definition call {A : Type} (r : result A) : M A :=
  match r with
  | Ok a => ret a
  | Raise msg => raise msg
  end.

(** [try: body except Exception as e: handler(str(e))].  The state reached
    when the exception was raised is the one the handler starts from. *)
Definition try_except {A : Type} (body : M A) (handler : string -> M A) : M A :=
  fun w =>
    match body w with
    | (Ok a, w') => (Ok a, w')
    | (Raise msg, w') => handler msg w'
    end.

Declare Scope monad_scope.
Delimit Scope monad_scope with monad.
Notation "x <- c ;; k" := (bind c (fun x => k))
  (at level 61, c at next level, right associativity) : monad_scope.
Notation "c ;;; k" := (bind c (fun _ => k))
  (at level 61, right associativity) : monad_scope.
Local Open Scope monad_scope.

(** ** flask.jsonify *)

(** The JSON encoder knows Python's [bool], [float] and [str]; for a
    [numpy.bool_] it raises [TypeError]. *)
Definition to_json (o : pyobj) : result json :=
  match o with
  | PyBool b => Ok (JBool b)
  | PyFloat x => Ok (JNumber x)
  | PyStr s => Ok (JString s)
  | NumpyBool _ => Raise "Object of type bool_ is not JSON serializable"
  end.

Fixpoint jsonify (payload : list (string * pyobj)) : result (list (string * json)) :=
  match payload with
  | [] => Ok []
  | (k, o) :: rest =>
      match to_json o with
      | Raise msg => Raise msg
      | Ok j =>
          match jsonify rest with
          | Raise msg => Raise msg
          | Ok js => Ok ((k, j) :: js)
          end
      end
  end.

(** [return jsonify(payload), code]. *)
Definition respond (payload : list (string * pyobj)) (code : nat) : M response :=
  body <- call (jsonify payload) ;;
  ret (mkResponse body code).

(** ** sqlite3 *)

(** A connection object; [pending] is the table as the open transaction of
    the connection sees it, when a statement has written and [commit] has
    not run yet. *)
Record connection : Type := mkConnection {
  pending : option (list row)
}.

(** A cursor after [execute]: the result set ([encoding] column) and
    [rowcount]. *)
Record cursor : Type := mkCursor {
  result_set : list string;
  rowcount : Z
}.

(** The three statements of the service. *)
Inductive statement : Type :=
| InsertOrReplace (fan enc upd : string)
    (* INSERT OR REPLACE INTO facial_templates (fan_id, encoding, updated_at) VALUES (?, ?, ?) *)
| SelectEncoding (fan : string)
    (* SELECT encoding FROM facial_templates WHERE fan_id = ? *)
| DeleteTemplate (fan : string).
    (* DELETE FROM facial_templates WHERE fan_id = ? *)

Definition has_id (fan : string) (r : row) : bool := String.eqb (fan_id r) fan.

Definition rows_of (fan : string) (t : list row) : list row := filter (has_id fan) t.

Definition rows_but (fan : string) (t : list row) : list row :=
  filter (fun r => negb (has_id fan r)) t.

(** [INSERT OR REPLACE]: the rows in conflict on the primary key are
    deleted, then the new row is inserted; a column that the statement does
    not name takes its default, so [created_at] is [CURRENT_TIMESTAMP]. *)
Definition insert_or_replace (now fan enc upd : string) (t : list row) : list row :=
  rows_but fan t ++ [mkRow fan enc now upd].

Definition table_seen (c : connection) (w : world) : list row :=
  match pending c with
  | Some t => t
  | None => facial_templates w
  end.

Definition set_open (n : nat) (w : world) : world :=
  mkWorld (facial_templates w) n.

Definition set_table (t : list row) (w : world) : world :=
  mkWorld t (open_connections w).

(** [get_db_connection()]: [sqlite3.connect(DB_PATH)]. *)
Definition get_db_connection (e : env) : M connection :=
  fun w =>
    match raises e Connect with
    | Some msg => (Raise msg, w)
    | None => (Ok (mkConnection None), set_open (S (open_connections w)) w)
    end.

(** [cursor = conn.cursor(); cursor.execute(stmt, params)]. *)
Definition execute (e : env) (c : connection) (s : statement) : M (connection * cursor) :=
  fun w =>
    match raises e Execute with
    | Some msg => (Raise msg, w)
    | None =>
        let t := table_seen c w in
        match s with
        | InsertOrReplace fan enc upd =>
            (Ok (mkConnection (Some (insert_or_replace (CURRENT_TIMESTAMP e) fan enc upd t)),
                 mkCursor [] 1%Z), w)
        | SelectEncoding fan =>
            (Ok (c, mkCursor (map encoding (rows_of fan t)) (-1)%Z), w)
        | DeleteTemplate fan =>
            (Ok (mkConnection (Some (rows_but fan t)),
                 mkCursor [] (Z.of_nat (length (rows_of fan t)))), w)
        end
    end.

(** [conn.commit()]. *)
Definition commit (e : env) (c : connection) : M connection :=
  fun w =>
    match raises e Commit with
    | Some msg => (Raise msg, w)
    | None => (Ok (mkConnection None), set_table (table_seen c w) w)
    end.

(** [cursor.fetchone()]. *)
Definition fetchone (e : env) (cur : cursor) : M (option string) :=
  fun w =>
    match raises e Fetchone with
    | Some msg => (Raise msg, w)
    | None => (Ok (hd_error (result_set cur)), w)
    end.

(** [conn.close()]: what the transaction had not committed is dropped. *)
Definition close (c : connection) : M unit :=
  fun w => (Ok tt, set_open (pred (open_connections w)) w).

(** ** The handlers *)

(** [health_check]; [return jsonify(...)] answers with status 200. *)
Definition health_check : M response :=
  respond [("status", PyStr "healthy");
           ("service", PyStr "facial-recognition-service");
           ("version", PyStr "1.0.0")] 200.

Definition error (msg : string) : list (string * pyobj) := [("error", PyStr msg)].

Definition internal_error (msg : string) : M response :=
  respond (error ("Internal server error: " ++ msg)) 500.

Section Service.

(** The face library and numpy. *)
Variable Image : Type.
Variable Encoding : Type.

(** [face_recognition.load_image_file(io.BytesIO(base64.b64decode(s)))]. *)
Variable load_image_file : string -> result Image.

(** [face_recognition.face_encodings(image)]: one encoding per face. *)
Variable face_encodings : Image -> result (list Encoding).

(** [encoding.tobytes()] and [np.frombuffer(blob, dtype=np.float64)]. *)
Variable tobytes : Encoding -> string.
Variable frombuffer : string -> result Encoding.

(** [face_recognition.face_distance([stored], probe)[0]], a
    [numpy.float64]. *)
Variable face_distance : Encoding -> Encoding -> result float.

(** [SIMILARITY_THRESHOLD = float(os.getenv('SIMILARITY_THRESHOLD', '0.6'))]. *)
Variable SIMILARITY_THRESHOLD : float.

Definition multiple_faces : string :=
  "Multiple faces detected. Please provide image with single face".

Definition register_face (e : env) (data : option dict) : M response :=
  try_except
    (if no_data data then respond (error "No JSON data provided") 400 else
     let fan_id := get "fan_id" data in
     let image_base64 := get "image" data in
     if py_not fan_id then respond (error "fan_id is required") 400 else
     if py_not image_base64 then respond (error "image is required") 400 else
     match load_image_file (str_of image_base64) with
     | Raise msg => respond (error ("Invalid image format: " ++ msg)) 400
     | Ok image =>
         encodings <- call (face_encodings image) ;;
         match encodings with
         | [] => respond (error "No face detected in image") 400
         | first :: _ =>
             if (1 <? length encodings)%nat then respond (error multiple_faces) 400 else
             let encoding_bytes := tobytes first in
             conn <- get_db_connection e ;;
             cc <- execute e conn
                     (InsertOrReplace (str_of fan_id) encoding_bytes (utcnow_isoformat e)) ;;
             conn' <- commit e (fst cc) ;;
             close conn' ;;;
             respond [("success", PyBool true);
                      ("fan_id", PyStr (str_of fan_id));
                      ("message", PyStr "Face template registered successfully")] 200
         end
     end)
    internal_error.

(** Lines 211 and 212. *)
Definition is_match (distance : float) : bool :=
  PrimFloat.ltb distance SIMILARITY_THRESHOLD.

Definition confidence (distance : float) : float :=
  pymax 0%float
    (pymin 1%float (PrimFloat.sub 1%float (PrimFloat.div distance SIMILARITY_THRESHOLD))).

(** The dictionary of the comparison path (lines 214 to 221). *)
Definition comparison_payload (fan : string) (distance : float) : list (string * pyobj) :=
  [("success", PyBool true);
   ("fan_id", PyStr fan);
   ("confidence_score", PyFloat (confidence distance));
   ("is_match", NumpyBool (is_match distance));
   ("distance", PyFloat distance);
   ("threshold", PyFloat SIMILARITY_THRESHOLD)].

(** The dictionary of the path without a face (lines 193 to 200). *)
Definition no_face_payload (fan : string) : list (string * pyobj) :=
  [("success", PyBool true);
   ("fan_id", PyStr fan);
   ("confidence_score", PyFloat 0%float);
   ("is_match", PyBool false);
   ("distance", PyFloat 1%float);
   ("message", PyStr "No face detected in image")].

Definition verify_face (e : env) (data : option dict) : M response :=
  try_except
    (if no_data data then respond (error "No JSON data provided") 400 else
     let fan_id := get "fan_id" data in
     let image_base64 := get "image" data in
     if py_not fan_id then respond (error "fan_id is required") 400 else
     if py_not image_base64 then respond (error "image is required") 400 else
     conn <- get_db_connection e ;;
     cc <- execute e conn (SelectEncoding (str_of fan_id)) ;;
     row <- fetchone e (snd cc) ;;
     close (fst cc) ;;;
     match row with
     | None => respond (error "Face not registered for this fan_id") 404
     | Some blob =>
         stored_encoding <- call (frombuffer blob) ;;
         match load_image_file (str_of image_base64) with
         | Raise msg => respond (error ("Invalid image format: " ++ msg)) 400
         | Ok image =>
             encodings <- call (face_encodings image) ;;
             match encodings with
             | [] => respond (no_face_payload (str_of fan_id)) 200
             | first :: _ =>
                 if (1 <? length encodings)%nat then respond (error multiple_faces) 400 else
                 distance <- call (face_distance stored_encoding first) ;;
                 respond (comparison_payload (str_of fan_id) distance) 200
             end
         end
     end)
    internal_error.

(** [fan_id] is the path parameter of [/delete/<fan_id>]. *)
Definition delete_face (e : env) (fan_id : string) : M response :=
  try_except
    (conn <- get_db_connection e ;;
     cc <- execute e conn (DeleteTemplate fan_id) ;;
     conn' <- commit e (fst cc) ;;
     let deleted := rowcount (snd cc) in
     close conn' ;;;
     if Z.eqb deleted 0 then respond (error "Face template not found") 404 else
     respond [("success", PyBool true);
              ("fan_id", PyStr fan_id);
              ("message", PyStr "Face template deleted successfully")] 200)
    internal_error.

End Service.

(** ** A small instance of the collaborators

    An image is decoded from its transport text into the list of the faces
    in it; a face encoding is represented by its own byte string, and two
    encodings are at distance 0 when equal and 0.75 otherwise. *)
Module Demo.

Definition Image : Type := list string.
Definition Encoding : Type := string.

Definition load_image_file (s : string) : result Image :=
  if String.eqb s "b25lIGZhY2U=" then Ok ["alice"]
  else if String.eqb s "YW5vdGhlciBmYWNl" then Ok ["bob"]
  else if String.eqb s "dHdvIGZhY2Vz" then Ok ["alice"; "bob"]
  else if String.eqb s "bm8gZmFjZQ==" then Ok []
  else Raise "cannot identify image file".

Definition face_encodings (i : Image) : result (list Encoding) := Ok i.

Definition tobytes (x : Encoding) : string := x.

Definition frombuffer (b : string) : result Encoding := Ok b.

Definition face_distance (a b : Encoding) : result float :=
  Ok (if String.eqb a b then 0%float else 0.75%float).

(** 0.6, the default threshold. *)
Definition SIMILARITY_THRESHOLD : float := 0x1.3333333333333p-1%float.

Definition register_face : env -> option dict -> M response :=
  register_face Image Encoding load_image_file face_encodings tobytes.

Definition verify_face : env -> option dict -> M response :=
  verify_face Image Encoding load_image_file face_encodings frombuffer
    face_distance SIMILARITY_THRESHOLD.

Definition quiet (db_now py_now : string) : env :=
  mkEnv db_now py_now (fun _ => None).

Definition january : env := quiet "2024-01-01 00:00:00" "2024-01-01T00:00:00.000000".
Definition june : env := quiet "2024-06-01 12:00:00" "2024-06-01T12:00:00.250000".

(** A request during which [cursor.execute] finds the database locked. *)
Definition locked : env :=
  mkEnv "2024-06-01 12:00:00" "2024-06-01T12:00:00.250000"
    (fun c => match c with Execute => Some "database is locked" | _ => None end).

Definition request (fan image : string) : option dict :=
  Some [("fan_id", fan); ("image", image)].

Definition empty : world := mkWorld [] 0.

Definition alice_row : row :=
  mkRow "fan-1" "alice" "2024-01-01 00:00:00" "2024-01-01T00:00:00.000000".

Definition enrolled : world := mkWorld [alice_row] 0.

End Demo.

(** ** Vocabulary of the contract *)

(** The request carries a non-empty [fan_id] and a non-empty [image]. *)
Definition well_formed (data : option dict) : Prop :=
  py_not (get "fan_id" data) = false /\ py_not (get "image" data) = false.

(** No sqlite3 call raises during the request. *)
Definition quiet_store (e : env) : Prop := forall c, raises e c = None.

(** The row stored for an identifier, if there is one. *)
Definition template_of (fan : string) (w : world) : option row :=
  find (has_id fan) (facial_templates w).

(** The primary key: at most one row per identifier. *)
Definition primary_key (t : list row) : Prop :=
  forall fan, length (rows_of fan t) <= 1.

(** The fields of the comparison response, as the interface lists them. *)
Definition success_shape : list string :=
  ["success"; "fan_id"; "confidence_score"; "is_match"; "distance"; "threshold"].

Definition same_fields (ks ks' : list string) : Prop :=
  forall k, In k ks <-> In k ks'.

(** A computation that only reads the table. *)
Definition reads_only {A : Type} (m : M A) : Prop :=
  forall w, facial_templates (snd (m w)) = facial_templates w.

(** Accounting of connections: [balanced m] leaves as many connections
    open as it found, on every exit; [closing m] leaves one less;
    [steady m] returns normally and leaves the count as it is. *)
Definition balanced {A : Type} (m : M A) : Prop :=
  forall w, open_connections (snd (m w)) = open_connections w.

Definition closing {A : Type} (m : M A) : Prop :=
  forall w, open_connections (snd (m w)) = pred (open_connections w).

Definition steady {A : Type} (m : M A) : Prop :=
  forall w, exists a w', m w = (Ok a, w') /\ open_connections w' = open_connections w.

(** ** Vocabulary of binary64 arithmetic

    Python's floats and [numpy.float64] are IEEE 754 binary64 numbers,
    here the primitive floats; their operations are specified on
    [spec_float] by the library. *)

Section Binary64Vocabulary.
Local Open Scope Z_scope.

(** The exponent of the format for a number of magnitude [z]:
    [fexp prec emax] at [prec = 53], [emax = 1024]. *)
Definition fexp64 (z : Z) : Z := Z.max (z - 53) (-1074).

(** What a record says about the number [num / den] it was cut from:
    the mantissa is its integer part, the round and sticky bits place the
    rest with respect to one half. *)
Definition inb (r : shr_record) (num den : Z) : Prop :=
  0 <= shr_m r /\
  match shr_r r, shr_s r with
  | false, false => num = shr_m r * den
  | false, true => shr_m r * den < num /\ 2 * num < (2 * shr_m r + 1) * den
  | true, false => 2 * num = (2 * shr_m r + 1) * den
  | true, true => (2 * shr_m r + 1) * den < 2 * num /\ num < (shr_m r + 1) * den
  end.

(** Shapes of a result: positive; of a given sign and not a NaN; of a
    given sign and below one in magnitude; one or more. *)
Definition positive_float (x : spec_float) : Prop :=
  x = S754_infinity false \/ exists m e, x = S754_finite false m e.

Definition signed (s : bool) (x : spec_float) : Prop :=
  x = S754_zero s \/ x = S754_infinity s \/ exists m e, x = S754_finite s m e.

Definition below_one (s : bool) (x : spec_float) : Prop :=
  x = S754_zero s \/ exists m e, x = S754_finite s m e /\ e <= -53.

Definition at_least_one (x : spec_float) : Prop :=
  x = S754_infinity false
  \/ exists m e, x = S754_finite false m e /\ -52 <= e /\ (e = -52 -> 2 ^ 52 <= Zpos m).

Definition not_positive (x : spec_float) : Prop :=
  x = S754_zero false \/ signed true x.

(** 1.0 and 0.0 in the specification. *)
Definition SF_one : spec_float := S754_finite false 4503599627370496 (-52).

Definition SF_zero : spec_float := S754_zero false.

(** Whether [max(0.0, min(1.0, x))] is positive, for
    [x = 1.0 - distance / SIMILARITY_THRESHOLD]. *)
Definition positive_after_clamp (x : spec_float) : bool :=
  if SFltb x SF_one then SFltb SF_zero x else true.

End Binary64Vocabulary.

(** ** Basic facts: the monad, the store *)

Ltac unfold_monad :=
  unfold try_except, respond, internal_error, call, bind, ret, raise in *.

Ltac unfold_store :=
  unfold get_db_connection, execute, commit, fetchone, close, table_seen,
    set_open, set_table in *.

(** Case analysis on whatever the handler branches on next. *)
Ltac branch :=
  match goal with
  | |- context [match ?x with _ => _ end] =>
      match type of x with
      | _ => is_var x; destruct x
      | _ => let E := fresh "E" in destruct x eqn:E
      end
  end.

Lemma world_eta (w : world) :
  mkWorld (facial_templates w) (open_connections w) = w.
Proof. destruct w; reflexivity. Qed.

Lemma well_formed_has_data (data : option dict) :
  well_formed data -> no_data data = false.
Proof.
  intros [Hfan _]. destruct data as [[|p d]|]; simpl in *; try discriminate; reflexivity.
Qed.

Lemma jsonify_error (msg : string) :
  jsonify (error msg) = Ok [("error", JString msg)].
Proof. reflexivity. Qed.

Lemma rows_of_find_none (fan : string) (t : list row) :
  find (has_id fan) t = None -> rows_of fan t = [].
Proof.
  unfold rows_of. induction t as [|r t IH]; simpl; intros H; [reflexivity|].
  destruct (has_id fan r); [discriminate | auto].
Qed.

Lemma rows_of_find_some (fan : string) (t : list row) (r : row) :
  find (has_id fan) t = Some r -> exists rest, rows_of fan t = r :: rest.
Proof.
  unfold rows_of. induction t as [|r' t IH]; simpl; intros H; [discriminate|].
  destruct (has_id fan r') eqn:E.
  - injection H as ->. eauto.
  - auto.
Qed.

Lemma rows_but_find_none (fan : string) (t : list row) :
  find (has_id fan) t = None -> rows_but fan t = t.
Proof.
  unfold rows_but. induction t as [|r t IH]; simpl; intros H; [reflexivity|].
  destruct (has_id fan r); [discriminate|]. simpl. f_equal. auto.
Qed.

Lemma find_rows_but (fan : string) (t : list row) :
  find (has_id fan) (rows_but fan t) = None.
Proof.
  unfold rows_but. induction t as [|r t IH]; simpl; [reflexivity|].
  destruct (has_id fan r) eqn:E; simpl; [assumption|]. rewrite E. assumption.
Qed.

Lemma rows_of_rows_but (fan : string) (t : list row) :
  rows_of fan (rows_but fan t) = [].
Proof. apply rows_of_find_none, find_rows_but. Qed.

Lemma rows_of_rows_but_other (fan fan' : string) (t : list row) :
  fan' <> fan -> rows_of fan' (rows_but fan t) = rows_of fan' t.
Proof.
  intros Hne. unfold rows_of, rows_but. induction t as [|r t IH]; simpl; [reflexivity|].
  destruct (has_id fan r) eqn:E; simpl.
  - unfold has_id in *. apply String.eqb_eq in E.
    destruct (String.eqb (fan_id r) fan') eqn:E'; [|assumption].
    apply String.eqb_eq in E'. congruence.
  - destruct (has_id fan' r); [f_equal|]; assumption.
Qed.

Lemma select_found (fan : string) (w : world) (r : row) :
  template_of fan w = Some r ->
  hd_error (map encoding (rows_of fan (facial_templates w))) = Some (encoding r).
Proof.
  intros H. destruct (rows_of_find_some _ _ _ H) as [rest ->]. reflexivity.
Qed.

Lemma select_missing (fan : string) (w : world) :
  template_of fan w = None ->
  hd_error (map encoding (rows_of fan (facial_templates w))) = None.
Proof. intros H. rewrite (rows_of_find_none _ _ H). reflexivity. Qed.

(** The checks on the request pass, and the sqlite3 calls go through. *)
Ltac pass_checks Hwf :=
  rewrite (well_formed_has_data _ Hwf);
  let Hfan := fresh "Hfan" in
  let Himg := fresh "Himg" in
  destruct Hwf as [Hfan Himg]; rewrite Hfan, Himg.

Ltac run_store Hq :=
  unfold_monad; unfold_store; rewrite ?Hq; simpl.

(** ** [INSERT OR REPLACE] and the primary key *)

Lemma rows_of_app (fan : string) (t t' : list row) :
  rows_of fan (t ++ t')%list = (rows_of fan t ++ rows_of fan t')%list.
Proof. apply filter_app. Qed.

Lemma has_id_refl (fan enc now upd : string) :
  has_id fan (mkRow fan enc now upd) = true.
Proof. apply String.eqb_refl. Qed.

(** After the statement the identifier has exactly one row: the new one,
    whose [created_at] is the [CURRENT_TIMESTAMP] of the statement. *)
Lemma rows_of_insert_or_replace (now fan enc upd : string) (t : list row) :
  rows_of fan (insert_or_replace now fan enc upd t) = [mkRow fan enc now upd].
Proof.
  unfold insert_or_replace. rewrite rows_of_app, rows_of_rows_but. simpl.
  unfold rows_of. simpl. rewrite has_id_refl. reflexivity.
Qed.

(** The rows of the other identifiers stay as they are. *)
Lemma rows_of_insert_or_replace_other (now fan enc upd fan' : string) (t : list row) :
  fan' <> fan ->
  rows_of fan' (insert_or_replace now fan enc upd t) = rows_of fan' t.
Proof.
  intros Hne. unfold insert_or_replace.
  rewrite rows_of_app, (rows_of_rows_but_other _ _ _ Hne).
  unfold rows_of at 2. simpl. unfold has_id. simpl.
  destruct (String.eqb fan fan') eqn:E.
  - apply String.eqb_eq in E. congruence.
  - apply app_nil_r.
Qed.

Lemma primary_key_insert_or_replace (now fan enc upd : string) (t : list row) :
  primary_key t -> primary_key (insert_or_replace now fan enc upd t).
Proof.
  intros Hpk fan'. destruct (String.eqb fan' fan) eqn:E.
  - apply String.eqb_eq in E. subst fan'.
    rewrite rows_of_insert_or_replace. simpl. lia.
  - apply String.eqb_neq in E.
    rewrite (rows_of_insert_or_replace_other _ _ _ _ _ _ E). apply Hpk.
Qed.

Lemma template_of_rows_of (fan : string) (w : world) :
  template_of fan w = hd_error (rows_of fan (facial_templates w)).
Proof.
  unfold template_of, rows_of. induction (facial_templates w) as [|r t IH]; simpl.
  - reflexivity.
  - destruct (has_id fan r); [reflexivity | assumption].
Qed.

(** ** Computations that only read the table *)

Lemma reads_only_ret {A : Type} (a : A) : reads_only (ret a).
Proof. intros w. reflexivity. Qed.

Lemma reads_only_raise {A : Type} (msg : string) : reads_only (@raise A msg).
Proof. intros w. reflexivity. Qed.

Lemma reads_only_call {A : Type} (r : result A) : reads_only (call r).
Proof. destruct r; intros w; reflexivity. Qed.

Lemma reads_only_bind {A B : Type} (m : M A) (k : A -> M B) :
  reads_only m -> (forall a, reads_only (k a)) -> reads_only (bind m k).
Proof.
  intros Hm Hk w. unfold bind. specialize (Hm w).
  destruct (m w) as [[a|msg] w']; simpl in *; [|assumption].
  rewrite Hk. assumption.
Qed.

Lemma reads_only_try_except {A : Type} (m : M A) (h : string -> M A) :
  reads_only m -> (forall msg, reads_only (h msg)) -> reads_only (try_except m h).
Proof.
  intros Hm Hh w. unfold try_except. specialize (Hm w).
  destruct (m w) as [[a|msg] w']; simpl in *; [assumption|].
  rewrite Hh. assumption.
Qed.

Lemma reads_only_respond (payload : list (string * pyobj)) (code : nat) :
  reads_only (respond payload code).
Proof.
  unfold respond. apply reads_only_bind; [apply reads_only_call|].
  intros a. apply reads_only_ret.
Qed.

Lemma reads_only_internal_error (msg : string) : reads_only (internal_error msg).
Proof. apply reads_only_respond. Qed.

Lemma reads_only_connect (e : env) : reads_only (get_db_connection e).
Proof. intros w. unfold get_db_connection. destruct (raises e Connect); reflexivity. Qed.

Lemma reads_only_select (e : env) (c : connection) (fan : string) :
  reads_only (execute e c (SelectEncoding fan)).
Proof. intros w. unfold execute. destruct (raises e Execute); reflexivity. Qed.

Lemma reads_only_fetchone (e : env) (cur : cursor) : reads_only (fetchone e cur).
Proof. intros w. unfold fetchone. destruct (raises e Fetchone); reflexivity. Qed.

Lemma reads_only_close (c : connection) : reads_only (close c).
Proof. intros w. reflexivity. Qed.

Ltac reads_only_step :=
  first
    [ apply reads_only_try_except
    | apply reads_only_respond
    | apply reads_only_internal_error
    | apply reads_only_ret
    | apply reads_only_call
    | apply reads_only_bind
    | apply reads_only_connect
    | apply reads_only_select
    | apply reads_only_fetchone
    | apply reads_only_close
    | match goal with
      | |- reads_only (if ?b then _ else _) => destruct b
      | |- reads_only (match ?x with _ => _ end) => destruct x
      | |- forall _, _ => intro
      end ].

(** ** Accounting of connections *)

Lemma balanced_ret {A : Type} (a : A) : balanced (ret a).
Proof. intros w. reflexivity. Qed.

Lemma balanced_call {A : Type} (r : result A) : balanced (call r).
Proof. destruct r; intros w; reflexivity. Qed.

Lemma balanced_bind {A B : Type} (m : M A) (k : A -> M B) :
  balanced m -> (forall a, balanced (k a)) -> balanced (bind m k).
Proof.
  intros Hm Hk w. unfold bind. specialize (Hm w).
  destruct (m w) as [[a|msg] w']; simpl in *; [|assumption].
  rewrite Hk. assumption.
Qed.

Lemma balanced_try_except {A : Type} (m : M A) (h : string -> M A) :
  balanced m -> (forall msg, balanced (h msg)) -> balanced (try_except m h).
Proof.
  intros Hm Hh w. unfold try_except. specialize (Hm w).
  destruct (m w) as [[a|msg] w']; simpl in *; [assumption|].
  rewrite Hh. assumption.
Qed.

Lemma balanced_respond (payload : list (string * pyobj)) (code : nat) :
  balanced (respond payload code).
Proof.
  unfold respond. apply balanced_bind; [apply balanced_call|].
  intros a. apply balanced_ret.
Qed.

Lemma balanced_internal_error (msg : string) : balanced (internal_error msg).
Proof. apply balanced_respond. Qed.

(** A connection that is opened, then closed by what follows. *)
Lemma balanced_connect (e : env) {B : Type} (k : connection -> M B) :
  (forall c, closing (k c)) -> balanced (bind (get_db_connection e) k).
Proof.
  intros Hk w. unfold bind, get_db_connection.
  destruct (raises e Connect); [reflexivity|]. rewrite Hk. reflexivity.
Qed.

Lemma closing_bind {A B : Type} (m : M A) (k : A -> M B) :
  steady m -> (forall a, closing (k a)) -> closing (bind m k).
Proof.
  intros Hm Hk w. unfold bind. destruct (Hm w) as (a & w' & -> & Hw').
  rewrite Hk. congruence.
Qed.

Lemma closing_close (c : connection) {B : Type} (k : unit -> M B) :
  (forall u, balanced (k u)) -> closing (bind (close c) k).
Proof. intros Hk w. unfold bind, close. rewrite Hk. reflexivity. Qed.

Lemma steady_execute (e : env) (c : connection) (s : statement) :
  raises e Execute = None -> steady (execute e c s).
Proof.
  intros H w. unfold execute. rewrite H.
  destruct s; eexists; eexists; split; reflexivity.
Qed.

Lemma steady_commit (e : env) (c : connection) :
  raises e Commit = None -> steady (commit e c).
Proof.
  intros H w. unfold commit. rewrite H.
  eexists; eexists; split; reflexivity.
Qed.

Lemma steady_fetchone (e : env) (cur : cursor) :
  raises e Fetchone = None -> steady (fetchone e cur).
Proof.
  intros H w. unfold fetchone. rewrite H.
  eexists; eexists; split; reflexivity.
Qed.

Ltac balanced_step :=
  first
    [ apply balanced_try_except
    | apply balanced_respond
    | apply balanced_internal_error
    | apply balanced_ret
    | apply balanced_call
    | apply balanced_connect
    | apply closing_close
    | apply closing_bind;
        [ first [ apply steady_execute | apply steady_commit | apply steady_fetchone ];
          assumption | ]
    | apply balanced_bind
    | match goal with
      | |- balanced (if ?b then _ else _) => destruct b
      | |- balanced (match ?x with _ => _ end) => destruct x
      | |- forall _, _ => intro
      end ].

(** When a call on the open connection raises, [delete_face] answers 500
    and the connection is still open. *)
Lemma delete_face_execute_raises (e : env) (fan msg : string) (w : world) :
  raises e Connect = None ->
  raises e Execute = Some msg ->
  delete_face e fan w =
    (Ok (mkResponse [("error", JString ("Internal server error: " ++ msg))] 500),
     set_open (S (open_connections w)) w).
Proof.
  intros Hc Hx. unfold delete_face. unfold_monad. unfold_store.
  rewrite Hc, Hx. reflexivity.
Qed.

(** ** Binary64: rounding, division and subtraction from one *)

Section Binary64.
Local Open Scope Z_scope.

Lemma fexp_64 z : fexp prec emax z = fexp64 z.
Proof. reflexivity. Qed.

Lemma pow2_succ k : 0 <= k -> 2 ^ (k + 1) = 2 * 2 ^ k.
Proof. intros. rewrite Z.pow_add_r by lia. lia. Qed.

Lemma digits2_pos_bounds (p : positive) :
  2 ^ (Zpos (digits2_pos p) - 1) <= Zpos p < 2 ^ Zpos (digits2_pos p).
Proof.
  induction p as [p IH|p IH|]; simpl digits2_pos.
  - rewrite Pos2Z.inj_succ.
    replace (Z.succ (Zpos (digits2_pos p)) - 1)
      with ((Zpos (digits2_pos p) - 1) + 1) by lia.
    unfold Z.succ. rewrite !pow2_succ by lia. lia.
  - rewrite Pos2Z.inj_succ.
    replace (Z.succ (Zpos (digits2_pos p)) - 1)
      with ((Zpos (digits2_pos p) - 1) + 1) by lia.
    unfold Z.succ. rewrite !pow2_succ by lia. lia.
  - simpl. lia.
Qed.

Lemma Zdigits2_pos (m : Z) : 0 < m -> 0 < Zdigits2 m.
Proof. destruct m; simpl; lia. Qed.

Lemma Zdigits2_bounds (m : Z) :
  0 < m -> 2 ^ (Zdigits2 m - 1) <= m < 2 ^ Zdigits2 m.
Proof. destruct m as [|p|p]; try lia. intros _. apply digits2_pos_bounds. Qed.

Lemma Zdigits2_le (m k : Z) : 0 <= k -> 0 <= m < 2 ^ k -> Zdigits2 m <= k.
Proof.
  intros Hk [Hm0 Hm]. destruct (Z.eq_dec m 0) as [->|Hne]; [simpl; lia|].
  destruct (Zdigits2_bounds m ltac:(lia)) as [Hlo _].
  destruct (Z.le_gt_cases (Zdigits2 m) k) as [|Hgt]; [assumption|].
  assert (2 ^ k <= 2 ^ (Zdigits2 m - 1)) by (apply Z.pow_le_mono_r; lia). lia.
Qed.

Lemma Zdigits2_ge (m k : Z) : 0 <= k -> 2 ^ k <= m -> k + 1 <= Zdigits2 m.
Proof.
  intros Hk Hm. assert (0 < m) by (pose proof (Z.pow_pos_nonneg 2 k); lia).
  destruct (Zdigits2_bounds m ltac:(lia)) as [_ Hhi].
  destruct (Z.le_gt_cases (k + 1) (Zdigits2 m)) as [|Hgt]; [assumption|].
  assert (2 ^ Zdigits2 m <= 2 ^ k) by (apply Z.pow_le_mono_r; lia). lia.
Qed.

(** Shifting a record right *)

Lemma pow2_xO (p : positive) : 2 ^ Zpos p~0 = 2 ^ Zpos p * 2 ^ Zpos p.
Proof. rewrite Pos2Z.inj_xO, <- Z.pow_add_r by lia. f_equal. lia. Qed.

Lemma pow2_xI (p : positive) : 2 ^ Zpos p~1 = 2 * (2 ^ Zpos p * 2 ^ Zpos p).
Proof.
  rewrite Pos2Z.inj_xI, Z.pow_add_r by lia. rewrite <- Pos2Z.inj_xO, pow2_xO.
  change (2 ^ 1) with 2. lia.
Qed.

Lemma pow2_gt0 (k : Z) : 0 <= k -> 0 < 2 ^ k.
Proof. intros. apply Z.pow_pos_nonneg; lia. Qed.

Lemma shr_m_shr_1 (r : shr_record) : 0 <= shr_m r -> shr_m (shr_1 r) = shr_m r / 2.
Proof.
  destruct r as [m r s]. simpl. intros Hm.
  destruct m as [|[p|p|]|p]; try lia; simpl shr_m.
  - reflexivity.
  - change (Z.pos p~1) with (2 * Z.pos p + 1).
    apply Z.div_unique with (r := 1); lia.
  - change (Z.pos p~0) with (2 * Z.pos p).
    apply Z.div_unique with (r := 0); lia.
  - reflexivity.
Qed.

Lemma shr_m_shr_1_nonneg (r : shr_record) : 0 <= shr_m r -> 0 <= shr_m (shr_1 r).
Proof. intros H. rewrite shr_m_shr_1 by assumption. apply Z.div_pos; lia. Qed.

Lemma shr_m_iter (p : positive) : forall r : shr_record,
  0 <= shr_m r ->
  shr_m (iter_pos shr_1 p r) = shr_m r / 2 ^ Zpos p.
Proof.
  induction p as [p IH|p IH|]; intros r Hr; simpl iter_pos.
  - assert (H1 : 0 <= shr_m (shr_1 r)) by (apply shr_m_shr_1_nonneg; assumption).
    assert (H2 : 0 <= shr_m (iter_pos shr_1 p (shr_1 r))).
    { rewrite IH by assumption. apply Z.div_pos; [assumption|]. apply pow2_gt0; lia. }
    pose proof (pow2_gt0 (Zpos p) ltac:(lia)) as Hp.
    rewrite IH, IH, shr_m_shr_1 by assumption.
    rewrite !Z.div_div by lia. rewrite pow2_xI. reflexivity.
  - assert (H2 : 0 <= shr_m (iter_pos shr_1 p r)).
    { rewrite IH by assumption. apply Z.div_pos; [assumption|]. apply pow2_gt0; lia. }
    pose proof (pow2_gt0 (Zpos p) ltac:(lia)) as Hp.
    rewrite IH, IH by assumption.
    rewrite !Z.div_div by lia. rewrite pow2_xO. reflexivity.
  - apply shr_m_shr_1. assumption.
Qed.

Lemma shr_m_iter_nonneg (p : positive) (r : shr_record) :
  0 <= shr_m r -> 0 <= shr_m (iter_pos shr_1 p r).
Proof.
  intros H. rewrite shr_m_iter by assumption.
  apply Z.div_pos; [assumption | apply pow2_gt0; lia].
Qed.

Lemma inb_bounds (r : shr_record) (num den : Z) :
  0 < den -> inb r num den ->
  shr_m r * den <= num < (shr_m r + 1) * den.
Proof.
  intros Hden [Hm H]. destruct (shr_r r), (shr_s r); lia.
Qed.

Lemma inb_shr_1 (r : shr_record) (num den : Z) :
  0 < den -> inb r num den -> inb (shr_1 r) num (2 * den).
Proof.
  intros Hden [Hm H]. destruct r as [m r s]. cbn [shr_m shr_r shr_s] in Hm, H.
  destruct m as [|[p|p|]|p]; try lia; unfold inb;
    try change (Z.pos p~1) with (2 * Z.pos p + 1) in H;
    try change (Z.pos p~0) with (2 * Z.pos p) in H;
    destruct r, s; cbn [shr_1 shr_m shr_r shr_s orb]; lia.
Qed.

Lemma inb_iter (p : positive) : forall (r : shr_record) (num den : Z),
  0 < den -> inb r num den ->
  inb (iter_pos shr_1 p r) num (2 ^ Zpos p * den).
Proof.
  induction p as [p IH|p IH|]; intros r num den Hden H; simpl iter_pos.
  - pose proof (pow2_gt0 (Zpos p) ltac:(lia)) as Hp.
    rewrite pow2_xI.
    replace (2 * (2 ^ Z.pos p * 2 ^ Z.pos p) * den)
      with (2 ^ Z.pos p * (2 ^ Z.pos p * (2 * den))) by lia.
    apply IH; [nia|]. apply IH; [lia|]. apply inb_shr_1; assumption.
  - pose proof (pow2_gt0 (Zpos p) ltac:(lia)) as Hp.
    rewrite pow2_xO.
    replace (2 ^ Z.pos p * 2 ^ Z.pos p * den)
      with (2 ^ Z.pos p * (2 ^ Z.pos p * den)) by lia.
    apply IH; [nia|]. apply IH; assumption.
  - change (2 ^ 1) with 2. apply inb_shr_1; assumption.
Qed.

(** Rounding to nearest, ties to even, moves the mantissa up by one at
    most, and only when the rest is one half or more. *)
Lemma round_nearest_even_spec (r : shr_record) (num den : Z) :
  0 < den -> inb r num den ->
  let m' := round_nearest_even (shr_m r) (loc_of_shr_record r) in
  shr_m r <= m' <= shr_m r + 1
  /\ (m' = shr_m r + 1 -> (2 * shr_m r + 1) * den <= 2 * num).
Proof.
  intros Hden [Hm H]. destruct r as [m r s]. cbn [shr_m shr_r shr_s] in *.
  destruct r, s; cbn [loc_of_shr_record round_nearest_even];
    try (destruct (Z.even m)); lia.
Qed.

Ltac record_simpl :=
  cbn [shr_m shr_r shr_s shr_record_of_loc shr_1 orb loc_of_shr_record round_nearest_even].

(** The location computed by the division. *)
Lemma inb_new_location (N d q r : Z) :
  0 < d -> 0 <= q -> 0 <= r < d -> N = d * q + r ->
  inb (shr_record_of_loc q (new_location d r)) N d.
Proof.
  intros Hd Hq Hr HN. unfold new_location, new_location_even, new_location_odd.
  destruct (Z.even d) eqn:Ev.
  - destruct (Z.eqb_spec r 0) as [->|Hr0]; [split; record_simpl; lia|].
    destruct (Z.compare_spec (2 * r) d); split; record_simpl; lia.
  - destruct (Z.eqb_spec r 0) as [->|Hr0]; [split; record_simpl; lia|].
    assert (Hodd : 2 * r <> d).
    { intros E. rewrite <- E in Ev. rewrite Z.even_mul in Ev. discriminate. }
    destruct (Z.compare_spec (2 * r + 1) d); split; record_simpl; lia.
Qed.

Lemma inb_exact (m : Z) : 0 <= m -> inb (shr_record_of_loc m loc_Exact) m 1.
Proof. intros. split; record_simpl; lia. Qed.

Lemma shr_m_record_of_loc (m : Z) (l : location) : shr_m (shr_record_of_loc m l) = m.
Proof. destruct l as [|[]]; reflexivity. Qed.

Lemma shr_fexp_spec (m e : Z) (l : location) (num den : Z) :
  0 <= m -> 0 < den -> inb (shr_record_of_loc m l) num den ->
  exists k r',
    shr_fexp prec emax m e l = (r', e + k)
    /\ 0 <= k
    /\ e + k = Z.max e (fexp64 (Zdigits2 m + e))
    /\ inb r' num (2 ^ k * den)
    /\ shr_m r' = m / 2 ^ k.
Proof.
  intros Hm Hden Hin. unfold shr_fexp, shr. rewrite fexp_64.
  destruct (fexp64 (Zdigits2 m + e) - e) as [|p|p] eqn:E.
  - exists 0, (shr_record_of_loc m l). rewrite Z.add_0_r, Z.mul_1_l, Z.div_1_r.
    rewrite shr_m_record_of_loc.
    split; [reflexivity|]. split; [lia|]. split; [lia|]. split; [assumption | reflexivity].
  - exists (Zpos p), (iter_pos shr_1 p (shr_record_of_loc m l)).
    split; [reflexivity|]. split; [lia|]. split; [lia|]. split.
    + apply inb_iter; assumption.
    + rewrite shr_m_iter by (rewrite shr_m_record_of_loc; assumption).
      rewrite shr_m_record_of_loc. reflexivity.
  - exists 0, (shr_record_of_loc m l). rewrite Z.add_0_r, Z.mul_1_l, Z.div_1_r.
    rewrite shr_m_record_of_loc.
    split; [reflexivity|]. split; [lia|]. split; [lia|]. split; [assumption | reflexivity].
Qed.

(** The two steps of [binary_round_aux]: cut to the exponent of the
    format, round, and cut once more if rounding carried. *)
Lemma binary_round_aux_spec (sx : bool) (mx ex : Z) (lx : location) (num den : Z) :
  0 <= mx -> 0 < den -> inb (shr_record_of_loc mx lx) num den ->
  exists k1 m1 mr k2,
    0 <= k1 /\ 0 <= k2
    /\ ex + k1 = Z.max ex (fexp64 (Zdigits2 mx + ex))
    /\ m1 = mx / 2 ^ k1
    /\ m1 * (2 ^ k1 * den) <= num < (m1 + 1) * (2 ^ k1 * den)
    /\ m1 <= mr <= m1 + 1
    /\ (mr = m1 + 1 -> (2 * m1 + 1) * (2 ^ k1 * den) <= 2 * num)
    /\ ex + k1 + k2 = Z.max (ex + k1) (fexp64 (Zdigits2 mr + (ex + k1)))
    /\ binary_round_aux prec emax sx mx ex lx =
         match mr / 2 ^ k2 with
         | Z0 => S754_zero sx
         | Zpos m =>
             if ex + k1 + k2 <=? 971 then S754_finite sx m (ex + k1 + k2)
             else S754_infinity sx
         | Zneg _ => S754_nan
         end.
Proof.
  intros Hmx Hden Hin.
  destruct (shr_fexp_spec mx ex lx num den Hmx Hden Hin)
    as (k1 & r1 & E1 & Hk1 & He1 & Hin1 & Hm1).
  assert (Hden1 : 0 < 2 ^ k1 * den) by (pose proof (pow2_gt0 k1 Hk1); nia).
  destruct (round_nearest_even_spec r1 num _ Hden1 Hin1) as [Hmr Hup].
  set (mr := round_nearest_even (shr_m r1) (loc_of_shr_record r1)) in *.
  assert (Hm1' : 0 <= shr_m r1) by apply Hin1.
  assert (Hmr0 : 0 <= mr) by lia.
  destruct (shr_fexp_spec mr (ex + k1) loc_Exact mr 1 Hmr0 ltac:(lia) (inb_exact mr Hmr0))
    as (k2 & r2 & E2 & Hk2 & He2 & _ & Hm2).
  exists k1, (shr_m r1), mr, k2.
  split; [assumption|]. split; [assumption|]. split; [assumption|].
  split; [assumption|]. split; [apply (inb_bounds r1 num _ Hden1 Hin1)|].
  split; [assumption|]. split; [assumption|]. split; [assumption|].
  unfold binary_round_aux. rewrite E1. fold mr. rewrite E2, Hm2. reflexivity.
Qed.

(** What is left of a positive mantissa after the cut is positive, as long
    as the exponent is in the range of the format. *)
Lemma cut_positive (m e k : Z) :
  0 < m -> -1074 <= e -> 0 <= k ->
  e + k = Z.max e (fexp64 (Zdigits2 m + e)) ->
  1 <= m / 2 ^ k.
Proof.
  intros Hm He Hk Hcut. unfold fexp64 in Hcut.
  destruct (Z.eq_dec k 0) as [->|Hk0]; [rewrite Z.div_1_r; lia|].
  assert (Ek : k = Zdigits2 m - 53) by lia.
  destruct (Zdigits2_bounds m Hm) as [Hlo _].
  apply Z.div_le_lower_bound; [apply pow2_gt0; lia|].
  rewrite Z.mul_1_r. apply Z.le_trans with (2 ^ (Zdigits2 m - 1)); [|assumption].
  apply Z.pow_le_mono_r; lia.
Qed.

(** The sign is kept, and the result is a number. *)
Lemma binary_round_aux_signed (sx : bool) (mx ex : Z) (lx : location) (num den : Z) :
  0 <= mx -> 0 < den -> inb (shr_record_of_loc mx lx) num den ->
  signed sx (binary_round_aux prec emax sx mx ex lx).
Proof.
  intros Hmx Hden Hin.
  destruct (binary_round_aux_spec sx mx ex lx num den Hmx Hden Hin)
    as (k1 & m1 & mr & k2 & Hk1 & Hk2 & He1 & Hm1 & Hb & Hmr & Hup & He2 & ->).
  assert (0 <= m1) by (subst m1; apply Z.div_pos; [assumption | apply pow2_gt0; assumption]).
  assert (Hq : 0 <= mr / 2 ^ k2) by (apply Z.div_pos; [lia | apply pow2_gt0; assumption]).
  destruct (mr / 2 ^ k2) as [|m|m]; [left; reflexivity | | lia].
  right. destruct (ex + k1 + k2 <=? 971); [right; eauto | left; reflexivity].
Qed.

(** An exact positive mantissa at an exponent of the format is rounded to
    a positive number. *)
Lemma binary_round_aux_positive (mx ex : Z) :
  0 < mx -> -1074 <= ex ->
  positive_float (binary_round_aux prec emax false mx ex loc_Exact).
Proof.
  intros Hmx Hex.
  destruct (binary_round_aux_spec false mx ex loc_Exact mx 1 ltac:(lia) ltac:(lia)
              (inb_exact mx ltac:(lia)))
    as (k1 & m1 & mr & k2 & Hk1 & Hk2 & He1 & Hm1 & Hb & Hmr & Hup & He2 & ->).
  assert (H1 : 1 <= m1) by (subst m1; apply (cut_positive mx ex k1); assumption).
  assert (H2 : 1 <= mr / 2 ^ k2) by (apply (cut_positive mr (ex + k1) k2); lia).
  destruct (mr / 2 ^ k2) as [|m|m]; try lia.
  destruct (ex + k1 + k2 <=? 971); [right; eauto | left; reflexivity].
Qed.

Lemma pow2_add (a b : Z) : 0 <= a -> 0 <= b -> 2 ^ (a + b) = 2 ^ a * 2 ^ b.
Proof. intros. apply Z.pow_add_r; assumption. Qed.

(** A quotient that is at most [1 - 2^-53] is rounded below one. *)
Lemma binary_round_aux_below_one (sx : bool) (mx ex : Z) (lx : location) (num den : Z) :
  0 <= mx -> 0 < den -> inb (shr_record_of_loc mx lx) num den ->
  ex <= -53 ->
  2 ^ 53 * num <= (2 ^ 53 - 1) * (2 ^ (- ex) * den) ->
  below_one sx (binary_round_aux prec emax sx mx ex lx).
Proof.
  intros Hmx Hden Hin Hex Hbound.
  destruct (binary_round_aux_spec sx mx ex lx num den Hmx Hden Hin)
    as (k1 & m1 & mr & k2 & Hk1 & Hk2 & He1 & Hm1 & Hb & Hmr & Hup & He2 & ->).
  pose proof (inb_bounds _ _ _ Hden Hin) as Hmx'. rewrite shr_m_record_of_loc in Hmx'.
  pose proof (pow2_gt0 (- ex) ltac:(lia)) as Hpex.
  pose proof (pow2_gt0 k1 Hk1) as Hpk1.
  assert (H53 : 2 ^ 53 = 9007199254740992) by reflexivity.
  (* the mantissa before the cut is below 2^-ex *)
  assert (Hmx_lt : mx < 2 ^ (- ex)).
  { assert (2 ^ 53 * (mx * den) < 2 ^ 53 * (2 ^ (- ex) * den)) by nia.
    assert (mx * den < 2 ^ (- ex) * den) by lia. nia. }
  assert (Hdx : Zdigits2 mx + ex <= 0).
  { pose proof (Zdigits2_le mx (- ex) ltac:(lia) ltac:(lia)). lia. }
  assert (He1' : ex + k1 <= -53) by (unfold fexp64 in He1; lia).
  (* the bound, at the exponent after the cut *)
  set (B := 2 ^ (- (ex + k1))).
  assert (HB : 2 ^ 53 <= B) by (apply Z.pow_le_mono_r; lia).
  assert (EB : 2 ^ (- ex) = B * 2 ^ k1).
  { unfold B. rewrite <- pow2_add by lia. f_equal. lia. }
  set (D1 := 2 ^ k1 * den) in *.
  assert (HD1 : 0 < D1) by (unfold D1; nia).
  assert (Hbound1 : 2 ^ 53 * num <= (2 ^ 53 - 1) * (B * D1)).
  { unfold D1. rewrite EB in Hbound. 
    replace (B * (2 ^ k1 * den)) with (B * 2 ^ k1 * den) by ring. exact Hbound. }
  assert (Hm10 : 0 <= m1) by (subst m1; apply Z.div_pos; lia).
  assert (Hmr_lt : mr < B).
  { destruct (Z.eq_dec mr (m1 + 1)) as [E|E].
    - specialize (Hup E).
      assert (2 ^ 53 * ((2 * m1 + 1) * D1) <= 2 * ((2 ^ 53 - 1) * (B * D1))) by nia.
      assert ((2 ^ 53 * (2 * m1 + 1)) * D1 <= (2 * (2 ^ 53 - 1) * B) * D1) by lia.
      assert (2 ^ 53 * (2 * m1 + 1) <= 2 * (2 ^ 53 - 1) * B) by nia.
      lia.
    - assert (mr = m1) by lia. subst mr.
      assert (2 ^ 53 * (m1 * D1) <= (2 ^ 53 - 1) * (B * D1)) by nia.
      assert ((2 ^ 53 * m1) * D1 <= ((2 ^ 53 - 1) * B) * D1) by lia.
      assert (2 ^ 53 * m1 <= (2 ^ 53 - 1) * B) by nia.
      lia. }
  assert (Hdr : Zdigits2 mr + (ex + k1) <= 0).
  { pose proof (Zdigits2_le mr (- (ex + k1)) ltac:(lia) ltac:(fold B; lia)). lia. }
  assert (He2' : ex + k1 + k2 <= -53) by (unfold fexp64 in He2; lia).
  assert (Hq : 0 <= mr / 2 ^ k2) by (apply Z.div_pos; [lia | apply pow2_gt0; assumption]).
  destruct (mr / 2 ^ k2) as [|m|m]; [left; reflexivity | | lia].
  right. exists m, (ex + k1 + k2).
  replace (ex + k1 + k2 <=? 971) with true by (symmetry; apply Z.leb_le; lia).
  split; [reflexivity | assumption].
Qed.

(** A quotient of at least 53 digits whose magnitude reaches one is
    rounded to one or more. *)
Lemma binary_round_aux_at_least_one (mx ex : Z) (lx : location) (num den : Z) :
  0 < den -> inb (shr_record_of_loc mx lx) num den ->
  2 ^ 52 <= mx ->
  1 <= Zdigits2 mx + ex ->
  at_least_one (binary_round_aux prec emax false mx ex lx).
Proof.
  intros Hden Hin Hmx Hmag.
  assert (H52 : 2 ^ 52 = 4503599627370496) by reflexivity.
  assert (H53 : 2 ^ 53 = 9007199254740992) by reflexivity.
  assert (Hmx0 : 0 <= mx) by lia.
  destruct (binary_round_aux_spec false mx ex lx num den Hmx0 Hden Hin)
    as (k1 & m1 & mr & k2 & Hk1 & Hk2 & He1 & Hm1 & Hb & Hmr & Hup & He2 & ->).
  pose proof (Zdigits2_ge mx 52 ltac:(lia) Hmx) as Hdx.
  assert (Ek1 : k1 = Zdigits2 mx - 53) by (unfold fexp64 in He1; lia).
  destruct (Zdigits2_bounds mx ltac:(lia)) as [Hlo Hhi].
  pose proof (pow2_gt0 k1 Hk1) as Hpk1.
  assert (Elo : 2 ^ (Zdigits2 mx - 1) = 2 ^ 52 * 2 ^ k1).
  { rewrite <- pow2_add by lia. f_equal. lia. }
  assert (Ehi : 2 ^ Zdigits2 mx = 2 ^ 53 * 2 ^ k1).
  { rewrite <- pow2_add by lia. f_equal. lia. }
  assert (Hm1lo : 2 ^ 52 <= m1).
  { subst m1. apply Z.div_le_lower_bound; lia. }
  assert (Hm1hi : m1 < 2 ^ 53).
  { subst m1. apply Z.div_lt_upper_bound; lia. }
  destruct (Z.eq_dec mr (2 ^ 53)) as [Emr|Emr].
  - (* rounding carried to 2^53 *)
    assert (Edr : Zdigits2 mr = 54) by (rewrite Emr; reflexivity).
    assert (Ek2 : k2 = 1) by (unfold fexp64 in He2; lia).
    rewrite Emr, Ek2. change (2 ^ 53 / 2 ^ 1) with (Zpos 4503599627370496).
    cbv iota beta.
    destruct (ex + k1 + 1 <=? 971); [right | left; reflexivity].
    exists 4503599627370496%positive, (ex + k1 + 1).
    split; [reflexivity|]. split; lia.
  - assert (Hmr' : 2 ^ 52 <= mr < 2 ^ 53) by lia.
    assert (Edr : Zdigits2 mr = 53).
    { pose proof (Zdigits2_ge mr 52 ltac:(lia) ltac:(lia)).
      pose proof (Zdigits2_le mr 53 ltac:(lia) ltac:(lia)). lia. }
    assert (Ek2 : k2 = 0) by (unfold fexp64 in He2; lia).
    rewrite Ek2, Z.div_1_r, Z.add_0_r.
    destruct mr as [|m|m]; try lia.
    destruct (ex + k1 <=? 971); [right | left; reflexivity].
    exists m, (ex + k1). split; [reflexivity|]. split; lia.
Qed.

(** ** Finite binary64 numbers *)

Lemma bounded_spec (m : positive) (e : Z) :
  bounded prec emax m e = true ->
  -1074 <= e <= 971 /\ Zpos m < 2 ^ 53 /\ (-1074 < e -> 2 ^ 52 <= Zpos m)
  /\ Zdigits2 (Zpos m) <= 53 /\ (-1074 < e -> Zdigits2 (Zpos m) = 53).
Proof.
  unfold bounded, canonical_mantissa. rewrite fexp_64. intros H.
  apply andb_true_iff in H. destruct H as [Hc He].
  apply Z.eqb_eq in Hc. apply Z.leb_le in He. change (emax - prec) with 971 in He.
  unfold fexp64 in Hc.
  destruct (Zdigits2_bounds (Zpos m) ltac:(lia)) as [Hlo Hhi].
  change (Zdigits2 (Zpos m)) with (Zpos (digits2_pos m)) in *.
  assert (Hd : Zpos (digits2_pos m) <= 53) by lia.
  assert (Hhi' : 2 ^ Zpos (digits2_pos m) <= 2 ^ 53) by (apply Z.pow_le_mono_r; lia).
  split; [lia|]. split; [lia|]. split; [|split; [lia | lia]].
  intros Hn. assert (E : Zpos (digits2_pos m) = 53) by lia.
  rewrite E in Hlo. exact Hlo.
Qed.

Lemma SFltb_finite (md : positive) (ed : Z) (mt : positive) (et : Z) :
  SFltb (S754_finite false md ed) (S754_finite false mt et) = true
  <-> ed < et \/ (ed = et /\ (md < mt)%positive).
Proof.
  unfold SFltb, SFcompare.
  destruct (Z.compare_spec ed et) as [E|E|E].
  - rewrite Pos.compare_cont_spec. simpl.
    destruct (Pos.compare_spec md mt) as [E'|E'|E']; split; intros H;
      try discriminate; try lia; auto.
  - split; [auto | reflexivity].
  - split; [discriminate | lia].
Qed.

(** ** Division *)

Lemma SFdiv_core_binary_spec (md : positive) (ed : Z) (mt : positive) (et : Z) :
  let X := Zdigits2 (Zpos md) + ed - (Zdigits2 (Zpos mt) + et) in
  let e' := Z.min (fexp64 X) (ed - et) in
  exists q r,
    SFdiv_core_binary prec emax (Zpos md) ed (Zpos mt) et =
      (q, e', new_location (Zpos mt) r)
    /\ Zpos md * 2 ^ (ed - et - e') = Zpos mt * q + r
    /\ 0 <= r < Zpos mt
    /\ 0 <= q.
Proof.
  intros X e'. unfold SFdiv_core_binary. rewrite fexp_64. fold X. fold e'.
  set (s := ed - et - e').
  assert (Hs : 0 <= s) by (unfold s, e'; lia).
  set (m' := match s with Z.pos _ => Z.shiftl (Zpos md) s | 0 => Zpos md | Z.neg _ => 0 end).
  assert (Em : m' = Zpos md * 2 ^ s).
  { unfold m'. destruct s as [|p|p]; [rewrite Z.mul_1_r; reflexivity | | lia].
    apply Z.shiftl_mul_pow2. lia. }
  pose proof (pow2_gt0 s Hs) as Hps.
  pose proof (Z_div_mod m' (Zpos mt) ltac:(lia)) as Hdm.
  destruct (Z.div_eucl m' (Z.pos mt)) as [q r] eqn:Ediv.
  exists q, r. destruct Hdm as [Hdm Hr].
  split; [reflexivity|]. split; [lia|]. split; [lia|].
  assert (0 <= m') by nia. nia.
Qed.

(** The quotient of two positive finite numbers, the smaller by the
    larger, is rounded below one. *)
Lemma SFdiv_below_one (md : positive) (ed : Z) (mt : positive) (et : Z) :
  bounded prec emax md ed = true ->
  bounded prec emax mt et = true ->
  ed < et \/ (ed = et /\ (md < mt)%positive) ->
  below_one false (SFdiv prec emax (S754_finite false md ed) (S754_finite false mt et)).
Proof.
  intros Hvd Hvt Hlt.
  destruct (bounded_spec _ _ Hvd) as (Hed & Hmd & Hnd & Hdd & Hdd').
  destruct (bounded_spec _ _ Hvt) as (Het & Hmt & Hnt & Hdt & Hdt').
  assert (H52 : 2 ^ 52 = 4503599627370496) by reflexivity.
  assert (H53 : 2 ^ 53 = 9007199254740992) by reflexivity.
  unfold SFdiv.
  destruct (SFdiv_core_binary_spec md ed mt et) as (q & r & -> & HN & Hr & Hq).
  set (X := Zdigits2 (Zpos md) + ed - (Zdigits2 (Zpos mt) + et)) in *.
  set (e' := Z.min (fexp64 X) (ed - et)) in *.
  cbv beta iota. change (xorb false false) with false.
  assert (HX : X <= 0).
  { destruct Hlt as [Hlt|[-> Hlt]].
    - unfold X. rewrite (Hdt' ltac:(lia)). lia.
    - pose proof (Zdigits2_le (Zpos md) (Zdigits2 (Zpos mt)) ltac:(simpl; lia)) as Hle.
      destruct (Zdigits2_bounds (Zpos mt) ltac:(lia)) as [_ Hhi].
      unfold X. lia. }
  assert (He' : e' <= -53) by (unfold e', fexp64; lia).
  assert (Hs : 0 <= ed - et - e') by (unfold e'; lia).
  pose proof (pow2_gt0 _ Hs) as Hps.
  apply (binary_round_aux_below_one false q e' _ (Zpos md * 2 ^ (ed - et - e')) (Zpos mt));
    try lia.
  - apply inb_new_location; lia.
  - destruct Hlt as [Hlt|[E Hlt]].
    + assert (E : 2 ^ (- e') = 2 ^ (ed - et - e') * 2 ^ (et - ed)).
      { rewrite <- pow2_add by lia. f_equal. lia. }
      assert (H2 : 2 <= 2 ^ (et - ed)).
      { change 2 with (2 ^ 1) at 1. apply Z.pow_le_mono_r; lia. }
      rewrite E. specialize (Hnt ltac:(lia)).
      set (S := 2 ^ (ed - et - e')) in *. set (G := 2 ^ (et - ed)) in *.
      assert (2 ^ 53 * Zpos md <= (2 ^ 53 - 1) * (G * Zpos mt)) by nia.
      nia.
    + assert (E' : ed - et - e' = - e') by lia. rewrite E'.
      pose proof (pow2_gt0 (- e') ltac:(lia)) as Hpe.
      set (S := 2 ^ (- e')) in *.
      assert (2 ^ 53 * Zpos md <= (2 ^ 53 - 1) * Zpos mt) by lia.
      nia.
Qed.

(** The quotient of two positive finite numbers, the larger by the
    smaller (or equal), is rounded to one or more. *)
Lemma SFdiv_at_least_one (md : positive) (ed : Z) (mt : positive) (et : Z) :
  bounded prec emax md ed = true ->
  bounded prec emax mt et = true ->
  et < ed \/ (ed = et /\ (mt <= md)%positive) ->
  at_least_one (SFdiv prec emax (S754_finite false md ed) (S754_finite false mt et)).
Proof.
  intros Hvd Hvt Hge.
  destruct (bounded_spec _ _ Hvd) as (Hed & Hmd & Hnd & Hdd & Hdd').
  destruct (bounded_spec _ _ Hvt) as (Het & Hmt & Hnt & Hdt & Hdt').
  assert (H52 : 2 ^ 52 = 4503599627370496) by reflexivity.
  assert (H53 : 2 ^ 53 = 9007199254740992) by reflexivity.
  unfold SFdiv.
  destruct (SFdiv_core_binary_spec md ed mt et) as (q & r & -> & HN & Hr & Hq).
  set (d1 := Zdigits2 (Zpos md)) in *. set (d2 := Zdigits2 (Zpos mt)) in *.
  set (X := d1 + ed - (d2 + et)) in *.
  set (e' := Z.min (fexp64 X) (ed - et)) in *.
  cbv beta iota. change (xorb false false) with false.
  assert (Hd1 : 1 <= d1) by (pose proof (Zdigits2_pos (Zpos md)); unfold d1; lia).
  assert (Hd2 : 1 <= d2) by (pose proof (Zdigits2_pos (Zpos mt)); unfold d2; lia).
  destruct (Zdigits2_bounds (Zpos md) ltac:(lia)) as [Hlo1 Hhi1]. fold d1 in Hlo1, Hhi1.
  destruct (Zdigits2_bounds (Zpos mt) ltac:(lia)) as [Hlo2 Hhi2]. fold d2 in Hlo2, Hhi2.
  assert (HX : 0 <= X /\ (X = 0 -> ed = et /\ d1 = d2 /\ Zpos mt <= Zpos md)).
  { destruct Hge as [Hgt|[-> Hge]].
    - unfold X. specialize (Hdd' ltac:(lia)). fold d1 in Hdd'. lia.
    - assert (d2 <= d1).
      { apply (Zdigits2_le (Zpos mt) d1); lia. }
      unfold X. lia. }
  destruct HX as [HX HX0].
  assert (Ee' : e' = X - 53) by (unfold e', fexp64, X; lia).
  assert (Es : ed - et - e' = 53 - d1 + d2) by (unfold X in Ee'; lia).
  rewrite Es in HN.
  pose proof (pow2_gt0 (53 - d1 + d2) ltac:(lia)) as Hps.
  (* the quotient has at least 53 digits *)
  assert (Hq52 : 2 ^ 52 <= q).
  { assert (E : 2 ^ (d1 - 1) * 2 ^ (53 - d1 + d2) = 2 ^ 52 * 2 ^ d2).
    { rewrite <- !pow2_add by lia. f_equal. lia. }
    assert (2 ^ 52 * Zpos mt < Zpos mt * (q + 1)) by nia.
    nia. }
  apply (binary_round_aux_at_least_one q e' _ (Zpos md * 2 ^ (53 - d1 + d2)) (Zpos mt));
    try lia.
  - apply inb_new_location; lia.
  - pose proof (Zdigits2_ge q 52 ltac:(lia) Hq52) as Hdq.
    destruct (Z.eq_dec X 0) as [E0|E0]; [|lia].
    destruct (HX0 E0) as (_ & Ed & Hle).
    assert (Es' : 53 - d1 + d2 = 53) by lia. rewrite Es' in HN.
    assert (Hq53 : 2 ^ 53 <= q) by nia.
    pose proof (Zdigits2_ge q 53 ltac:(lia) Hq53). lia.
Qed.

(** ** Subtraction from one *)

Lemma iter_xO_spec (d m : positive) : Zpos (Pos.iter xO m d) = Zpos m * 2 ^ Zpos d.
Proof.
  induction d as [|d IH] using Pos.peano_ind.
  - simpl. lia.
  - rewrite Pos.iter_succ, Pos2Z.inj_succ, Z.pow_succ_r by lia.
    rewrite Pos2Z.inj_xO, IH. lia.
Qed.

Lemma shl_align_spec (m : positive) (e e' : Z) :
  snd (shl_align m e e') = Z.min e e'
  /\ Zpos (fst (shl_align m e e')) = Zpos m * 2 ^ (e - Z.min e e').
Proof.
  unfold shl_align. destruct (e' - e) as [|d|d] eqn:E; cbn [fst snd].
  - rewrite Z.min_l by lia. rewrite Z.sub_diag, Z.pow_0_r. split; lia.
  - rewrite Z.min_l by lia. rewrite Z.sub_diag, Z.pow_0_r. split; lia.
  - rewrite Z.min_r by lia. split; [reflexivity|].
    rewrite iter_xO_spec. f_equal. f_equal. lia.
Qed.

Lemma binary_round_signed (s : bool) (m : positive) (e : Z) :
  signed s (binary_round prec emax s m e).
Proof.
  unfold binary_round. destruct (shl_align m e _) as [mz ez].
  apply (binary_round_aux_signed s (Zpos mz) ez loc_Exact (Zpos mz) 1); try lia.
  apply inb_exact. lia.
Qed.

Lemma binary_round_positive (m : positive) (e : Z) :
  -1074 <= e -> positive_float (binary_round prec emax false m e).
Proof.
  intros He. unfold binary_round.
  pose proof (shl_align_spec m e (fexp prec emax (Zpos (digits2_pos m) + e))) as [Hs _].
  rewrite fexp_64 in *. unfold fexp64 in Hs.
  destruct (shl_align m e _) as [mz ez]. simpl in Hs.
  apply binary_round_aux_positive; lia.
Qed.

Lemma SFsub_one_below (x : spec_float) :
  valid_binary x = true -> below_one false x ->
  positive_float (SFsub prec emax SF_one x).
Proof.
  intros Hv [->|(m & e & -> & He)].
  - right. unfold SF_one. simpl. eauto.
  - simpl in Hv. destruct (bounded_spec _ _ Hv) as (Hev & Hm & _).
    unfold SF_one, SFsub.
    destruct (shl_align_spec 4503599627370496 (-52) (Z.min (-52) e)) as [_ Ha].
    destruct (shl_align_spec m e (Z.min (-52) e)) as [_ Hb].
    rewrite Ha, Hb. unfold cond_Zopp.
    replace (Z.min (-52) (Z.min (-52) e)) with e by lia.
    replace (Z.min e (Z.min (-52) e)) with e by lia.
    replace (Z.min (-52) e) with e by lia.
    rewrite Z.sub_diag, Z.mul_1_r.
    assert (E : Zpos 4503599627370496 * 2 ^ (-52 - e) = 2 ^ (- e)).
    { change (Zpos 4503599627370496) with (2 ^ 52). rewrite <- pow2_add by lia. f_equal. lia. }
    rewrite E.
    assert (H53 : 2 ^ 53 <= 2 ^ (- e)) by (apply Z.pow_le_mono_r; lia).
    destruct (2 ^ (- e) - Zpos m) as [|p|p] eqn:Ed; try lia.
    unfold binary_normalize. apply binary_round_positive. lia.
Qed.

Lemma SFsub_one_above (x : spec_float) :
  valid_binary x = true -> at_least_one x ->
  not_positive (SFsub prec emax SF_one x).
Proof.
  intros Hv [->|(m & e & -> & He & Hm52)].
  - right. right. left. reflexivity.
  - simpl in Hv. destruct (bounded_spec _ _ Hv) as (Hev & Hm & Hn & _).
    assert (H52 : 2 ^ 52 <= Zpos m) by (destruct (Z.eq_dec e (-52)); [auto | apply Hn; lia]).
    unfold SF_one, SFsub.
    destruct (shl_align_spec 4503599627370496 (-52) (Z.min (-52) e)) as [_ Ha].
    destruct (shl_align_spec m e (Z.min (-52) e)) as [_ Hb].
    rewrite Ha, Hb. unfold cond_Zopp.
    replace (Z.min (-52) (Z.min (-52) e)) with (-52) by lia.
    replace (Z.min e (Z.min (-52) e)) with (-52) by lia.
    replace (Z.min (-52) e) with (-52) by lia.
    rewrite Z.sub_diag, Z.mul_1_r.
    pose proof (pow2_gt0 (e - -52) ltac:(lia)) as Hp.
    change (Zpos 4503599627370496) with (2 ^ 52).
    destruct (2 ^ 52 - Zpos m * 2 ^ (e - -52)) as [|p|p] eqn:Ed.
    + left. reflexivity.
    + nia.
    + right. unfold binary_normalize. apply binary_round_signed.
Qed.

Lemma SFsub_one_negative (x : spec_float) :
  valid_binary x = true -> signed true x ->
  positive_float (SFsub prec emax SF_one x).
Proof.
  intros Hv [->|[->|(m & e & ->)]].
  - right. unfold SF_one. simpl. eauto.
  - left. reflexivity.
  - simpl in Hv. destruct (bounded_spec _ _ Hv) as (Hev & _).
    unfold SF_one, SFsub.
    destruct (shl_align_spec 4503599627370496 (-52) (Z.min (-52) e)) as [_ Ha].
    destruct (shl_align_spec m e (Z.min (-52) e)) as [_ Hb].
    rewrite Ha, Hb. unfold cond_Zopp.
    pose proof (pow2_gt0 (-52 - Z.min (-52) (Z.min (-52) e)) ltac:(lia)) as Hp1.
    pose proof (pow2_gt0 (e - Z.min e (Z.min (-52) e)) ltac:(lia)) as Hp2.
    destruct (Zpos 4503599627370496 * 2 ^ (-52 - Z.min (-52) (Z.min (-52) e))
              - - (Zpos m * 2 ^ (e - Z.min e (Z.min (-52) e)))) as [|p|p] eqn:Ed; try nia.
    unfold binary_normalize. apply binary_round_positive. lia.
Qed.

Lemma Prim2SF_zero : Prim2SF 0%float = SF_zero.
Proof. reflexivity. Qed.

Lemma Prim2SF_one : Prim2SF 1%float = SF_one.
Proof. reflexivity. Qed.

Lemma Prim2SF_not_nan (x : float) : PrimFloat.is_nan x = false -> Prim2SF x <> S754_nan.
Proof.
  intros H. unfold Prim2SF. rewrite H.
  destruct (is_zero x); [discriminate|].
  destruct (is_infinity x); [discriminate|].
  destruct (Z.frexp x) as [r e]. destruct (shr_fexp _ _ _ _ _) as [s e'].
  destruct (shr_m s); discriminate.
Qed.

Lemma Prim2SF_infinity (x : float) : Prim2SF x = S754_infinity false -> x = infinity.
Proof. intros H. rewrite <- (SF2Prim_Prim2SF x), H. reflexivity. Qed.

Lemma confidence_positive (T d : float) :
  PrimFloat.ltb 0 (confidence T d) =
    positive_after_clamp (SFsub prec emax SF_one (SFdiv prec emax (Prim2SF d) (Prim2SF T))).
Proof.
  unfold confidence, pymax, pymin, positive_after_clamp.
  set (x := (1 - d / T)%float).
  assert (Ex : Prim2SF x = SFsub prec emax SF_one (SFdiv prec emax (Prim2SF d) (Prim2SF T))).
  { unfold x. rewrite sub_spec, div_spec, Prim2SF_one. reflexivity. }
  rewrite <- Ex.
  assert (E1 : PrimFloat.ltb x 1 = SFltb (Prim2SF x) SF_one)
    by (rewrite ltb_spec, Prim2SF_one; reflexivity).
  assert (E0 : PrimFloat.ltb 0 x = SFltb SF_zero (Prim2SF x))
    by (rewrite ltb_spec, Prim2SF_zero; reflexivity).
  rewrite <- E1, <- E0.
  destruct (PrimFloat.ltb x 1) eqn:Hx1.
  - destruct (PrimFloat.ltb 0 x) eqn:Hx0; [assumption | reflexivity].
  - reflexivity.
Qed.

Lemma confidence_zero (T d : float) :
  PrimFloat.ltb 0 (confidence T d) = false -> confidence T d = 0%float.
Proof.
  unfold confidence, pymax. set (y := pymin _ _).
  destruct (PrimFloat.ltb 0 y) eqn:Hy; [congruence | reflexivity].
Qed.

Lemma positive_float_clamp (x : spec_float) :
  positive_float x -> positive_after_clamp x = true.
Proof.
  unfold positive_after_clamp.
  intros [->|(m & e & ->)]; [reflexivity|].
  destruct (SFltb _ SF_one); reflexivity.
Qed.

Lemma not_positive_clamp (x : spec_float) :
  not_positive x -> positive_after_clamp x = false.
Proof.
  unfold positive_after_clamp.
  intros [->|[->|[->|(m & e & ->)]]]; reflexivity.
Qed.

(** Comparison and clamped confidence agree, on the specification of
    binary64. *)
Lemma compare_agrees_with_clamp (D T : spec_float) :
  valid_binary D = true -> valid_binary T = true ->
  valid_binary (SFdiv prec emax D T) = true ->
  SFltb SF_zero T = true ->
  D <> S754_nan ->
  ~ (D = S754_infinity false /\ T = S754_infinity false) ->
  SFltb D T = positive_after_clamp (SFsub prec emax SF_one (SFdiv prec emax D T)).
Proof.
  intros HvD HvT HvQ HT Hnan Hinf.
  destruct T as [st|[|]| |[|] mt et]; try discriminate HT.
  - (* T = +infinity *)
    destruct D as [sd|[|]| |sd md ed]; try congruence.
    + reflexivity.
    + reflexivity.
    + exfalso. apply Hinf. split; reflexivity.
    + destruct sd; reflexivity.
  - (* T finite, positive *)
    destruct D as [sd|[|]| |[|] md ed]; try congruence.
    + reflexivity.
    + reflexivity.
    + reflexivity.
    + (* D negative *)
      symmetry. transitivity true; [|reflexivity].
      apply positive_float_clamp, SFsub_one_negative; [assumption|].
      unfold SFdiv.
      destruct (SFdiv_core_binary_spec md ed mt et) as (q & r & -> & HN & Hr & Hq).
      cbv beta iota. change (xorb true false) with true.
      set (e' := Z.min _ _) in *.
      apply (binary_round_aux_signed true q e' _ (Zpos md * 2 ^ (ed - et - e')) (Zpos mt));
        try lia.
      apply inb_new_location; lia.
    + (* D positive *)
      simpl in HvD, HvT.
      destruct (SFltb (S754_finite false md ed) (S754_finite false mt et)) eqn:Hlt.
      * symmetry. apply positive_float_clamp, SFsub_one_below; [assumption|].
        apply SFdiv_below_one; try assumption. apply SFltb_finite. assumption.
      * symmetry. apply not_positive_clamp, SFsub_one_above; [assumption|].
        apply SFdiv_at_least_one; try assumption.
        assert (Hn : ~ (ed < et \/ (ed = et /\ (md < mt)%positive))).
        { intros H. apply SFltb_finite in H. congruence. }
        lia.
Qed.

End Binary64.

(** ** The contract of the handlers *)

Section Contract.

Variable Image : Type.
Variable Encoding : Type.
Variable load_image_file : string -> result Image.
Variable face_encodings : Image -> result (list Encoding).
Variable tobytes : Encoding -> string.
Variable frombuffer : string -> result Encoding.
Variable face_distance : Encoding -> Encoding -> result float.
Variable SIMILARITY_THRESHOLD : float.

Local Notation "'register'" :=
  (register_face Image Encoding load_image_file face_encodings tobytes).
Local Notation "'verify'" :=
  (verify_face Image Encoding load_image_file face_encodings frombuffer
     face_distance SIMILARITY_THRESHOLD).

(** C7.  Whatever the request, the state of the store and the sqlite3
    calls that fail, the table after [verify_face] is the table before
    it: the handler only reads. *)
Theorem verify_leaves_table (e : env) (data : option dict) (w : world) :
  facial_templates (snd (verify e data w)) = facial_templates w.
Proof.
  revert w. change (reads_only (verify e data)).
  unfold verify_face. cbv zeta. repeat reads_only_step.
Qed.

(** C8.  For every state of the store [health_check] answers 200 with
    exactly the fields status, service and version, holding fixed
    values; the store is neither consulted nor changed. *)
Theorem health_check_static (w : world) :
  health_check w =
    (Ok (mkResponse [("status", JString "healthy");
                     ("service", JString "facial-recognition-service");
                     ("version", JString "1.0.0")] 200), w).
Proof. reflexivity. Qed.

(** C9.  A request for [verify_face] with non-empty [fan_id] and [image]
    whose identifier has no row is answered 404, whatever the image
    text is: the row is looked up before the image is decoded. *)
Theorem verify_unregistered (e : env) (data : option dict) (w : world) :
  well_formed data ->
  quiet_store e ->
  template_of (str_of (get "fan_id" data)) w = None ->
  verify e data w =
    (Ok (mkResponse [("error", JString "Face not registered for this fan_id")] 404), w).
Proof.
  intros Hwf Hq Hnone. unfold verify_face. pass_checks Hwf.
  run_store Hq. rewrite (select_missing _ _ Hnone). simpl.
  rewrite world_eta. reflexivity.
Qed.

(** C1.  A request for [verify_face] whose identifier has a row and
    whose image holds exactly one face reaches the comparison, and the
    dictionary built there cannot be serialised: [is_match] is the
    [numpy.bool_] of the comparison.  The answer is 500. *)
Theorem verify_single_face_500 (e : env) (data : option dict) (w : world)
    (r : row) (stored probe : Encoding) (image : Image) (distance : float) :
  well_formed data ->
  quiet_store e ->
  template_of (str_of (get "fan_id" data)) w = Some r ->
  frombuffer (encoding r) = Ok stored ->
  load_image_file (str_of (get "image" data)) = Ok image ->
  face_encodings image = Ok [probe] ->
  face_distance stored probe = Ok distance ->
  verify e data w =
    (Ok (mkResponse
           [("error", JString "Internal server error: Object of type bool_ is not JSON serializable")]
           500), w).
Proof.
  intros Hwf Hq Hrow Hbuf Himage Hfaces Hdist. unfold verify_face. pass_checks Hwf.
  run_store Hq. rewrite (select_found _ _ _ Hrow). simpl.
  rewrite Hbuf, Himage, Hfaces. simpl. rewrite Hdist. simpl.
  rewrite world_eta. reflexivity.
Qed.

(** C2, as the code has it.  A request for [verify_face] whose
    identifier has a row and whose image holds no face is answered 200
    with the fields success, fan_id, confidence_score, is_match,
    distance and message, where is_match is false, distance is 1.0 and
    confidence_score is 0.0. *)
Theorem verify_no_face (e : env) (data : option dict) (w : world)
    (r : row) (stored : Encoding) (image : Image) :
  well_formed data ->
  quiet_store e ->
  template_of (str_of (get "fan_id" data)) w = Some r ->
  frombuffer (encoding r) = Ok stored ->
  load_image_file (str_of (get "image" data)) = Ok image ->
  face_encodings image = Ok [] ->
  verify e data w =
    (Ok (mkResponse
           [("success", JBool true);
            ("fan_id", JString (str_of (get "fan_id" data)));
            ("confidence_score", JNumber 0%float);
            ("is_match", JBool false);
            ("distance", JNumber 1%float);
            ("message", JString "No face detected in image")]
           200), w).
Proof.
  intros Hwf Hq Hrow Hbuf Himage Hfaces. unfold verify_face. pass_checks Hwf.
  run_store Hq. rewrite (select_found _ _ _ Hrow). simpl.
  rewrite Hbuf, Himage, Hfaces. simpl.
  rewrite world_eta. reflexivity.
Qed.

(** C5.  [register_face] answers 400 and leaves the store as it was
    when the image holds no face or more than one; [verify_face], for an
    identifier that has a row, answers 400 when the image holds more than
    one face. *)
Theorem wrong_face_count_rejected (e : env) (data : option dict) (w : world)
    (image : Image) (encodings : list Encoding) :
  well_formed data ->
  load_image_file (str_of (get "image" data)) = Ok image ->
  face_encodings image = Ok encodings ->
  (encodings = [] ->
     register e data w =
       (Ok (mkResponse [("error", JString "No face detected in image")] 400), w))
  /\ (1 < length encodings ->
        register e data w =
          (Ok (mkResponse [("error", JString multiple_faces)] 400), w))
  /\ (1 < length encodings ->
      forall (r : row) (stored : Encoding),
        quiet_store e ->
        template_of (str_of (get "fan_id" data)) w = Some r ->
        frombuffer (encoding r) = Ok stored ->
        verify e data w =
          (Ok (mkResponse [("error", JString multiple_faces)] 400), w)).
Proof.
  intros Hwf Himage Hfaces. repeat split.
  - intros ->. unfold register_face. pass_checks Hwf.
    rewrite Himage. unfold_monad. rewrite Hfaces. reflexivity.
  - intros Hlen. unfold register_face. pass_checks Hwf.
    rewrite Himage. unfold_monad. rewrite Hfaces.
    destruct encodings as [|first rest]; [simpl in Hlen; lia|].
    apply Nat.ltb_lt in Hlen. rewrite Hlen. reflexivity.
  - intros Hlen r stored Hq Hrow Hbuf. unfold verify_face. pass_checks Hwf.
    run_store Hq. rewrite (select_found _ _ _ Hrow). simpl.
    rewrite Hbuf, Himage, Hfaces.
    destruct encodings as [|first rest]; [simpl in Hlen; lia|].
    apply Nat.ltb_lt in Hlen. rewrite Hlen. simpl.
    rewrite world_eta. reflexivity.
Qed.

(** What a successful [register_face] does to the store: one
    [INSERT OR REPLACE], committed, on a connection that is closed. *)
Lemma register_single_face (e : env) (data : option dict) (w : world)
    (image : Image) (face : Encoding) :
  well_formed data ->
  quiet_store e ->
  load_image_file (str_of (get "image" data)) = Ok image ->
  face_encodings image = Ok [face] ->
  register e data w =
    (Ok (mkResponse
           [("success", JBool true);
            ("fan_id", JString (str_of (get "fan_id" data)));
            ("message", JString "Face template registered successfully")]
           200),
     set_table
       (insert_or_replace (CURRENT_TIMESTAMP e) (str_of (get "fan_id" data))
          (tobytes face) (utcnow_isoformat e) (facial_templates w)) w).
Proof.
  intros Hwf Hq Himage Hfaces. unfold register_face. pass_checks Hwf.
  rewrite Himage. run_store Hq. rewrite Hfaces. simpl. rewrite ?Hq. simpl.
  reflexivity.
Qed.

(** After a successful [register_face] the identifier has exactly one
    row; it holds the new encoding, the new [updated_at], and a
    [created_at] that is the [CURRENT_TIMESTAMP] of this request,
    whatever the row held before.  The other rows are untouched. *)
Lemma register_single_face_row (e : env) (data : option dict) (w : world)
    (image : Image) (face : Encoding) :
  well_formed data ->
  quiet_store e ->
  load_image_file (str_of (get "image" data)) = Ok image ->
  face_encodings image = Ok [face] ->
  let fan := str_of (get "fan_id" data) in
  let w' := snd (register e data w) in
  rows_of fan (facial_templates w') =
    [mkRow fan (tobytes face) (CURRENT_TIMESTAMP e) (utcnow_isoformat e)]
  /\ (forall fan', fan' <> fan ->
        rows_of fan' (facial_templates w') = rows_of fan' (facial_templates w))
  /\ (primary_key (facial_templates w) -> primary_key (facial_templates w')).
Proof.
  intros Hwf Hq Himage Hfaces fan w'. subst w'.
  rewrite (register_single_face _ _ _ _ _ Hwf Hq Himage Hfaces). simpl.
  split; [apply rows_of_insert_or_replace|].
  split; [intros fan' Hne; apply rows_of_insert_or_replace_other; assumption|].
  apply primary_key_insert_or_replace.
Qed.

(** C6.  [delete_face] on an identifier that has a row removes it and
    answers 200; on an identifier without a row it answers 404 and
    changes nothing; so a second [delete_face] after a first one that
    found the row answers 404. *)
Theorem delete_face_found_then_missing (e e' : env) (fan : string) (w : world) :
  quiet_store e ->
  quiet_store e' ->
  let gone := set_table (rows_but fan (facial_templates w)) w in
  (forall r, template_of fan w = Some r ->
     delete_face e fan w =
       (Ok (mkResponse
              [("success", JBool true);
               ("fan_id", JString fan);
               ("message", JString "Face template deleted successfully")]
              200), gone)
     /\ template_of fan gone = None
     /\ delete_face e' fan gone =
          (Ok (mkResponse [("error", JString "Face template not found")] 404), gone))
  /\ (template_of fan w = None ->
      delete_face e fan w =
        (Ok (mkResponse [("error", JString "Face template not found")] 404), w)).
Proof.
  intros Hq Hq' gone.
  assert (Hmissing : forall e0 w0, quiet_store e0 -> template_of fan w0 = None ->
            delete_face e0 fan w0 =
              (Ok (mkResponse [("error", JString "Face template not found")] 404), w0)).
  { intros e0 w0 Hq0 Hnone. unfold delete_face. run_store Hq0.
    rewrite (rows_of_find_none _ _ Hnone), (rows_but_find_none _ _ Hnone). simpl.
    rewrite world_eta. reflexivity. }
  assert (Hgone : template_of fan gone = None) by apply find_rows_but.
  split; [|apply Hmissing; assumption].
  intros r Hrow. split; [|split; [assumption | apply Hmissing; assumption]].
  unfold delete_face. run_store Hq.
  destruct (rows_of_find_some _ _ _ Hrow) as [rest ->]. reflexivity.
Qed.

(** C4, as the code has it.  On every exit on which no sqlite3 call
    made on the open connection raises (responses 200, 400, 404, and 500
    for a failure of a collaborator or of the connect itself), the handler
    has closed the connection it opened: as many connections are open
    when it returns as when it started. *)
Theorem connection_closed_unless_store_raises
    (e : env) (data : option dict) (fan : string) (w : world) :
  raises e Execute = None ->
  raises e Commit = None ->
  raises e Fetchone = None ->
  open_connections (snd (register e data w)) = open_connections w
  /\ open_connections (snd (verify e data w)) = open_connections w
  /\ open_connections (snd (delete_face e fan w)) = open_connections w.
Proof.
  intros Hx Hc Hf. repeat split; revert w.
  - change (balanced (register e data)).
    unfold register_face. cbv zeta. repeat balanced_step.
  - change (balanced (verify e data)).
    unfold verify_face. cbv zeta. repeat balanced_step.
  - change (balanced (delete_face e fan)).
    unfold delete_face. cbv zeta. repeat balanced_step.
Qed.

(** C10, as the code has it.  For the values computed on lines 211 and
    212, when the threshold is positive, the distance is not a NaN, and
    distance and threshold are not both infinite: [is_match] is true if
    and only if the confidence is positive; without a match the confidence
    is exactly 0.0, in particular when the distance equals the
    threshold. *)
Theorem is_match_iff_confidence_positive (d : float) :
  PrimFloat.ltb 0%float SIMILARITY_THRESHOLD = true ->
  PrimFloat.is_nan d = false ->
  ~ (d = infinity /\ SIMILARITY_THRESHOLD = infinity) ->
  (is_match SIMILARITY_THRESHOLD d = true
   <-> PrimFloat.ltb 0%float (confidence SIMILARITY_THRESHOLD d) = true)
  /\ (is_match SIMILARITY_THRESHOLD d = false ->
      confidence SIMILARITY_THRESHOLD d = 0%float)
  /\ (d = SIMILARITY_THRESHOLD ->
      is_match SIMILARITY_THRESHOLD d = false
      /\ confidence SIMILARITY_THRESHOLD d = 0%float).
Proof.
  intros HT Hnan Hinf.
  assert (E : is_match SIMILARITY_THRESHOLD d =
              PrimFloat.ltb 0%float (confidence SIMILARITY_THRESHOLD d)).
  { rewrite confidence_positive. unfold is_match. rewrite ltb_spec.
    apply compare_agrees_with_clamp.
    - apply Prim2SF_valid.
    - apply Prim2SF_valid.
    - rewrite <- div_spec. apply Prim2SF_valid.
    - rewrite <- Prim2SF_zero, <- ltb_spec. assumption.
    - apply Prim2SF_not_nan. assumption.
    - intros [H1 H2]. apply Hinf. split; apply Prim2SF_infinity; assumption. }
  assert (Hfalse : is_match SIMILARITY_THRESHOLD d = false ->
                   confidence SIMILARITY_THRESHOLD d = 0%float).
  { intros H. apply confidence_zero. rewrite <- E. assumption. }
  split; [rewrite E; reflexivity|]. split; [assumption|].
  intros ->.
  assert (Hirr : is_match SIMILARITY_THRESHOLD SIMILARITY_THRESHOLD = false).
  { unfold is_match. rewrite ltb_spec. unfold SFltb.
    destruct (Prim2SF SIMILARITY_THRESHOLD) as [s|s| |s m e]; simpl.
    - reflexivity.
    - destruct s; reflexivity.
    - reflexivity.
    - rewrite Z.compare_refl, Pos.compare_cont_refl. destruct s; reflexivity. }
  split; [assumption | auto].
Qed.

End Contract.

(** ** The contract on concrete requests *)

Lemma quiet_is_quiet (db_now py_now : string) : quiet_store (Demo.quiet db_now py_now).
Proof. intros c. reflexivity. Defined.

(** C1 on a request: the template of fan-1 is stored, the image holds one
    face, the distance is computed, and the answer is 500. *)
Lemma verify_single_face_500_witness :
  template_of "fan-1" Demo.enrolled = Some Demo.alice_row
  /\ Demo.load_image_file "b25lIGZhY2U=" = Ok ["alice"]
  /\ Demo.face_distance "alice" "alice" = Ok 0%float
  /\ Demo.verify_face Demo.june (Demo.request "fan-1" "b25lIGZhY2U=") Demo.enrolled =
       (Ok (mkResponse
              [("error", JString "Internal server error: Object of type bool_ is not JSON serializable")]
              500), Demo.enrolled).
Proof.
  split; [reflexivity|]. split; [reflexivity|]. split; [reflexivity|].
  apply (verify_single_face_500 Demo.Image Demo.Encoding Demo.load_image_file
           Demo.face_encodings Demo.frombuffer Demo.face_distance
           Demo.SIMILARITY_THRESHOLD Demo.june (Demo.request "fan-1" "b25lIGZhY2U=")
           Demo.enrolled Demo.alice_row "alice" "alice" ["alice"] 0%float).
  - split; reflexivity.
  - intros c; reflexivity.
  - reflexivity.
  - reflexivity.
  - reflexivity.
  - reflexivity.
  - reflexivity.
Defined.

(** C2 as stated fails: the answer to a request without a face has a
    message and no threshold, so its fields are not those of the
    comparison response. *)
Lemma verify_no_face_not_success_shape :
  template_of "fan-1" Demo.enrolled = Some Demo.alice_row
  /\ Demo.load_image_file "bm8gZmFjZQ==" = Ok []
  /\ ~ (exists resp w',
          Demo.verify_face Demo.june (Demo.request "fan-1" "bm8gZmFjZQ==") Demo.enrolled =
            (Ok resp, w')
          /\ status resp = 200
          /\ same_fields (keys (body resp)) success_shape
          /\ field "is_match" (body resp) = Some (JBool false)
          /\ field "distance" (body resp) = Some (JNumber 1%float)
          /\ field "confidence_score" (body resp) = Some (JNumber 0%float)).
Proof.
  split; [reflexivity|]. split; [reflexivity|].
  intros (resp & w' & Hrun & _ & Hshape & _).
  vm_compute in Hrun. injection Hrun as <- _.
  destruct (Hshape "threshold") as [_ Hin].
  assert (H : In "threshold" success_shape) by (simpl; tauto).
  apply Hin in H. simpl in H.
  repeat (destruct H as [H|H]; [discriminate H|]). exact H.
Qed.

Lemma verify_no_face_witness :
  template_of "fan-1" Demo.enrolled = Some Demo.alice_row
  /\ Demo.load_image_file "bm8gZmFjZQ==" = Ok []
  /\ Demo.verify_face Demo.june (Demo.request "fan-1" "bm8gZmFjZQ==") Demo.enrolled =
       (Ok (mkResponse
              [("success", JBool true);
               ("fan_id", JString "fan-1");
               ("confidence_score", JNumber 0%float);
               ("is_match", JBool false);
               ("distance", JNumber 1%float);
               ("message", JString "No face detected in image")]
              200), Demo.enrolled).
Proof.
  split; [reflexivity|]. split; [reflexivity|].
  apply (verify_no_face Demo.Image Demo.Encoding Demo.load_image_file
           Demo.face_encodings Demo.frombuffer Demo.face_distance
           Demo.SIMILARITY_THRESHOLD Demo.june (Demo.request "fan-1" "bm8gZmFjZQ==")
           Demo.enrolled Demo.alice_row "alice" []).
  - split; reflexivity.
  - intros c; reflexivity.
  - reflexivity.
  - reflexivity.
  - reflexivity.
  - reflexivity.
Defined.

(** C3 on two requests.  fan-1 was enrolled in January; a second
    [register_face] in June succeeds, leaves one row for fan-1, and that
    row's [created_at] is the June timestamp. *)
Theorem reregister_resets_created_at :
  let w' := snd (Demo.register_face Demo.june
                   (Demo.request "fan-1" "YW5vdGhlciBmYWNl") Demo.enrolled) in
  option_map created_at (template_of "fan-1" Demo.enrolled) = Some "2024-01-01 00:00:00"
  /\ rows_of "fan-1" (facial_templates w') =
       [mkRow "fan-1" "bob" "2024-06-01 12:00:00" "2024-06-01T12:00:00.250000"]
  /\ option_map created_at (template_of "fan-1" w') = Some "2024-06-01 12:00:00".
Proof. cbv zeta. split; [reflexivity|]. split; reflexivity. Qed.

(** C4 as stated fails: when [cursor.execute] raises, the handlers answer
    500 and the connection they opened is still open. *)
Lemma connection_left_open_when_execute_raises :
  open_connections Demo.enrolled = 0
  /\ delete_face Demo.locked "fan-1" Demo.enrolled =
       (Ok (mkResponse [("error", JString "Internal server error: database is locked")] 500),
        mkWorld [Demo.alice_row] 1)
  /\ Demo.verify_face Demo.locked (Demo.request "fan-1" "b25lIGZhY2U=") Demo.enrolled =
       (Ok (mkResponse [("error", JString "Internal server error: database is locked")] 500),
        mkWorld [Demo.alice_row] 1)
  /\ Demo.register_face Demo.locked (Demo.request "fan-1" "b25lIGZhY2U=") Demo.enrolled =
       (Ok (mkResponse [("error", JString "Internal server error: database is locked")] 500),
        mkWorld [Demo.alice_row] 1)
  /\ open_connections (snd (delete_face Demo.locked "fan-1" Demo.enrolled))
       <> open_connections Demo.enrolled.
Proof.
  split; [reflexivity|]. split; [reflexivity|]. split; [reflexivity|].
  split; [reflexivity|]. simpl. discriminate.
Qed.

Lemma connection_closed_witness :
  raises Demo.june Execute = None
  /\ raises Demo.june Commit = None
  /\ raises Demo.june Fetchone = None
  /\ open_connections
       (snd (Demo.register_face Demo.june (Demo.request "fan-1" "b25lIGZhY2U=") Demo.enrolled)) = 0
  /\ open_connections
       (snd (Demo.verify_face Demo.june (Demo.request "fan-1" "b25lIGZhY2U=") Demo.enrolled)) = 0
  /\ open_connections (snd (delete_face Demo.june "fan-1" Demo.enrolled)) = 0.
Proof.
  split; [reflexivity|]. split; [reflexivity|]. split; [reflexivity|].
  apply (connection_closed_unless_store_raises Demo.Image Demo.Encoding
           Demo.load_image_file Demo.face_encodings Demo.tobytes Demo.frombuffer
           Demo.face_distance Demo.SIMILARITY_THRESHOLD Demo.june
           (Demo.request "fan-1" "b25lIGZhY2U=") "fan-1" Demo.enrolled);
    reflexivity.
Defined.

(** C5 on three requests: enrolment without a face, enrolment with two
    faces, verification with two faces. *)
Lemma wrong_face_count_rejected_witness :
  Demo.load_image_file "bm8gZmFjZQ==" = Ok []
  /\ Demo.load_image_file "dHdvIGZhY2Vz" = Ok ["alice"; "bob"]
  /\ template_of "fan-1" Demo.enrolled = Some Demo.alice_row
  /\ Demo.register_face Demo.june (Demo.request "fan-2" "bm8gZmFjZQ==") Demo.enrolled =
       (Ok (mkResponse [("error", JString "No face detected in image")] 400), Demo.enrolled)
  /\ Demo.register_face Demo.june (Demo.request "fan-2" "dHdvIGZhY2Vz") Demo.enrolled =
       (Ok (mkResponse [("error", JString multiple_faces)] 400), Demo.enrolled)
  /\ Demo.verify_face Demo.june (Demo.request "fan-1" "dHdvIGZhY2Vz") Demo.enrolled =
       (Ok (mkResponse [("error", JString multiple_faces)] 400), Demo.enrolled).
Proof.
  split; [reflexivity|]. split; [reflexivity|]. split; [reflexivity|].
  split; [|split].
  - apply (wrong_face_count_rejected Demo.Image Demo.Encoding Demo.load_image_file
             Demo.face_encodings Demo.tobytes Demo.frombuffer Demo.face_distance
             Demo.SIMILARITY_THRESHOLD Demo.june (Demo.request "fan-2" "bm8gZmFjZQ==")
             Demo.enrolled [] []);
      [split; reflexivity | reflexivity | reflexivity | reflexivity].
  - apply (wrong_face_count_rejected Demo.Image Demo.Encoding Demo.load_image_file
             Demo.face_encodings Demo.tobytes Demo.frombuffer Demo.face_distance
             Demo.SIMILARITY_THRESHOLD Demo.june (Demo.request "fan-2" "dHdvIGZhY2Vz")
             Demo.enrolled ["alice"; "bob"] ["alice"; "bob"]);
      [split; reflexivity | reflexivity | reflexivity | simpl; lia].
  - apply (wrong_face_count_rejected Demo.Image Demo.Encoding Demo.load_image_file
             Demo.face_encodings Demo.tobytes Demo.frombuffer Demo.face_distance
             Demo.SIMILARITY_THRESHOLD Demo.june (Demo.request "fan-1" "dHdvIGZhY2Vz")
             Demo.enrolled ["alice"; "bob"] ["alice"; "bob"]) with (r := Demo.alice_row)
             (stored := "alice");
      [split; reflexivity | reflexivity | reflexivity | simpl; lia
      | intros c; reflexivity | reflexivity | reflexivity].
Defined.

(** C6 on two requests in a row, and on a store without the row. *)
Lemma delete_face_found_then_missing_witness :
  template_of "fan-1" Demo.enrolled = Some Demo.alice_row
  /\ template_of "fan-1" Demo.empty = None
  /\ delete_face Demo.january "fan-1" Demo.enrolled =
       (Ok (mkResponse
              [("success", JBool true);
               ("fan_id", JString "fan-1");
               ("message", JString "Face template deleted successfully")]
              200), Demo.empty)
  /\ delete_face Demo.june "fan-1" Demo.empty =
       (Ok (mkResponse [("error", JString "Face template not found")] 404), Demo.empty)
  /\ delete_face Demo.january "fan-1" Demo.empty =
       (Ok (mkResponse [("error", JString "Face template not found")] 404), Demo.empty).
Proof.
  split; [reflexivity|]. split; [reflexivity|].
  destruct (delete_face_found_then_missing Demo.january Demo.june "fan-1" Demo.enrolled
              (quiet_is_quiet _ _) (quiet_is_quiet _ _)) as [Hfound _].
  destruct (Hfound Demo.alice_row eq_refl) as (Hfirst & _ & Hsecond).
  destruct (delete_face_found_then_missing Demo.january Demo.june "fan-1" Demo.empty
              (quiet_is_quiet _ _) (quiet_is_quiet _ _)) as [_ Hmissing].
  split; [exact Hfirst|]. split; [exact Hsecond | exact (Hmissing eq_refl)].
Defined.

(** C9 on a request whose image text is not an image at all. *)
Lemma verify_unregistered_witness :
  template_of "fan-2" Demo.enrolled = None
  /\ Demo.load_image_file "not an image" = Raise "cannot identify image file"
  /\ Demo.verify_face Demo.june (Demo.request "fan-2" "not an image") Demo.enrolled =
       (Ok (mkResponse [("error", JString "Face not registered for this fan_id")] 404),
        Demo.enrolled).
Proof.
  split; [reflexivity|]. split; [reflexivity|].
  apply (verify_unregistered Demo.Image Demo.Encoding Demo.load_image_file
           Demo.face_encodings Demo.frombuffer Demo.face_distance
           Demo.SIMILARITY_THRESHOLD Demo.june (Demo.request "fan-2" "not an image")
           Demo.enrolled).
  - split; reflexivity.
  - intros c; reflexivity.
  - reflexivity.
Defined.

(** C10 as stated fails: for a distance that is a NaN the comparison is
    false, and the clamp, [max(0.0, min(1.0, nan))], is 1.0. *)
Lemma nan_distance_confident_without_match :
  PrimFloat.ltb 0%float Demo.SIMILARITY_THRESHOLD = true
  /\ comparison_payload Demo.SIMILARITY_THRESHOLD "fan-1" nan =
       [("success", PyBool true);
        ("fan_id", PyStr "fan-1");
        ("confidence_score", PyFloat 1%float);
        ("is_match", NumpyBool false);
        ("distance", PyFloat nan);
        ("threshold", PyFloat Demo.SIMILARITY_THRESHOLD)]
  /\ ~ (is_match Demo.SIMILARITY_THRESHOLD nan = true
        <-> PrimFloat.ltb 0%float (confidence Demo.SIMILARITY_THRESHOLD nan) = true).
Proof.
  split; [reflexivity|]. split; [reflexivity|].
  intros [_ H]. specialize (H eq_refl). discriminate H.
Qed.

(** C10 on distance 0.25 (a match, confidence positive) and on the
    threshold itself (no match, confidence 0.0). *)
Lemma is_match_iff_confidence_positive_witness :
  PrimFloat.ltb 0%float Demo.SIMILARITY_THRESHOLD = true
  /\ PrimFloat.is_nan 0.25%float = false
  /\ is_match Demo.SIMILARITY_THRESHOLD 0.25%float = true
  /\ PrimFloat.ltb 0%float (confidence Demo.SIMILARITY_THRESHOLD 0.25%float) = true
  /\ is_match Demo.SIMILARITY_THRESHOLD Demo.SIMILARITY_THRESHOLD = false
  /\ confidence Demo.SIMILARITY_THRESHOLD Demo.SIMILARITY_THRESHOLD = 0%float.
Proof.
  assert (Hfinite : forall d : float,
            PrimFloat.is_infinity d = false ->
            ~ (d = infinity /\ Demo.SIMILARITY_THRESHOLD = infinity)).
  { intros d Hd [E _]. rewrite E in Hd. vm_compute in Hd. discriminate Hd. }
  split; [reflexivity|]. split; [reflexivity|]. split; [reflexivity|].
  destruct (is_match_iff_confidence_positive Demo.SIMILARITY_THRESHOLD 0.25%float
              eq_refl eq_refl (Hfinite 0.25%float eq_refl)) as [Hiff _].
  destruct (is_match_iff_confidence_positive Demo.SIMILARITY_THRESHOLD
              Demo.SIMILARITY_THRESHOLD eq_refl eq_refl
              (Hfinite Demo.SIMILARITY_THRESHOLD eq_refl))
    as (_ & _ & Hsame).
  split; [apply Hiff; reflexivity | exact (Hsame eq_refl)].
Defined.
